(** * RabbitMQ queue sensor ([sensors/queues_sensor.py])

    A shallow embedding of the StackStorm sensor that consumes messages from
    RabbitMQ queues and dispatches each one as a [rabbitmq.new_message]
    trigger, together with the properties of its constructor, of [setup] and
    of the per-message callback.

    The sensor is Python 3 code: message bodies are [bytes], text is [str].
    Effects (logging, broker calls, dispatch to the host) are recorded in a
    chronological trace; exceptions are an explicit outcome. *)

From Stdlib Require Import List Strings.String Strings.Ascii Strings.Byte NArith ZArith Bool Lia.
Import ListNotations.

Set Warnings "-register-all".

(* ================================================================= *)
(** ** Python values *)

(** [str]: a sequence of Unicode code points. *)
Definition pystr := list N.

(** [bytes]. *)
Definition bytes := list byte.

(** An ASCII literal as a [str] and as a [bytes] object. *)
Definition py (s : string) : pystr := map Byte.to_N (list_byte_of_string s).
Definition bytes_of (s : string) : bytes := list_byte_of_string s.

(** The values that occur in the pack configuration, in message bodies and
    in deserialized payloads.  Dictionaries keep insertion order and have
    [str] keys; floats are not represented. *)
Inductive pyval : Type :=
| VNone
| VBool (b : bool)
| VInt (z : Z)
| VStr (s : pystr)
| VBytes (b : bytes)
| VList (l : list pyval)
| VDict (d : list (pystr * pyval))
| VPlainCredentials (username password : pyval).

Definition pystr_eqb (a b : pystr) : bool :=
  if list_eq_dec N.eq_dec a b then true else false.

(** Truth value of an object, as tested by [if], [and] and [not]. *)
Definition truthy (v : pyval) : bool :=
  match v with
  | VNone => false
  | VBool b => b
  | VInt z => negb (z =? 0)%Z
  | VStr s => match s with [] => false | _ => true end
  | VBytes b => match b with [] => false | _ => true end
  | VList l => match l with [] => false | _ => true end
  | VDict d => match d with [] => false | _ => true end
  | VPlainCredentials _ _ => true
  end.

(** Lists and dictionaries are the unhashable values. *)
Definition hashable (v : pyval) : bool :=
  match v with
  | VList _ | VDict _ => false
  | _ => true
  end.

(* ================================================================= *)
(** ** Exceptions *)

Inductive exc_class : Type :=
| KeyError
| TypeError
| AttributeError
| ValueError
| UnicodeDecodeError
| JSONDecodeError
| UnpicklingError
| AMQPConnectionError
| RuntimeError
| KeyboardInterrupt
| SystemExit.

(** [issubclass(c, Exception)]: everything but the two classes that derive
    from [BaseException] directly. *)
Definition is_Exception (c : exc_class) : bool :=
  match c with
  | KeyboardInterrupt | SystemExit => false
  | _ => true
  end.

(** A raised exception: its class, its message (a format string, left
    unformatted) and the values the message is formatted with. *)
Record exn : Type := Exc {
  exc_type : exc_class;
  exc_msg : string;
  exc_args : list pyval
}.

Inductive outcome (A : Type) : Type :=
| Ok (a : A)
| Raise (e : exn).
Arguments Ok {A} a.
Arguments Raise {A} e.

(* ================================================================= *)
(** ** [bytes.decode('utf-8')] *)

Definition is_cont (x : N) : bool := ((128 <=? x) && (x <=? 191))%N.
Definition in_range (lo hi x : N) : bool := ((lo <=? x) && (x <=? hi))%N.

(** Strict UTF-8: shortest form only, no surrogates, nothing above
    U+10FFFF.  [None] is a [UnicodeDecodeError]. *)
Fixpoint utf8_decode (bs : bytes) : option pystr :=
  match bs with
  | [] => Some []
  | b0 :: r0 =>
    let x0 := Byte.to_N b0 in
    if (x0 <? 128)%N then option_map (cons x0) (utf8_decode r0)
    else if in_range 194 223 x0 then
      match r0 with
      | b1 :: r1 =>
        let x1 := Byte.to_N b1 in
        if is_cont x1
        then option_map (cons ((x0 - 192) * 64 + (x1 - 128))%N) (utf8_decode r1)
        else None
      | _ => None
      end
    else if in_range 224 239 x0 then
      match r0 with
      | b1 :: b2 :: r2 =>
        let x1 := Byte.to_N b1 in
        let x2 := Byte.to_N b2 in
        if in_range (if (x0 =? 224)%N then 160 else 128)
                    (if (x0 =? 237)%N then 159 else 191) x1 && is_cont x2
        then option_map
               (cons ((x0 - 224) * 4096 + (x1 - 128) * 64 + (x2 - 128))%N)
               (utf8_decode r2)
        else None
      | _ => None
      end
    else if in_range 240 244 x0 then
      match r0 with
      | b1 :: b2 :: b3 :: r3 =>
        let x1 := Byte.to_N b1 in
        let x2 := Byte.to_N b2 in
        let x3 := Byte.to_N b3 in
        if in_range (if (x0 =? 240)%N then 144 else 128)
                    (if (x0 =? 244)%N then 143 else 191) x1
           && is_cont x2 && is_cont x3
        then option_map
               (cons ((x0 - 240) * 262144 + (x1 - 128) * 4096
                      + (x2 - 128) * 64 + (x3 - 128))%N)
               (utf8_decode r3)
        else None
      | _ => None
      end
    else None
  end.

(** [v.decode('utf-8')]: only [bytes] has the method. *)
Definition decode_utf8 (v : pyval) : outcome pystr :=
  match v with
  | VBytes b =>
    match utf8_decode b with
    | Some s => Ok s
    | None => Raise (Exc UnicodeDecodeError "'utf-8' codec can't decode byte" [VBytes b])
    end
  | _ => Raise (Exc AttributeError "object has no attribute 'decode'" [v])
  end.

Definition is_bytes (v : pyval) : bool :=
  match v with VBytes _ => true | _ => false end.

(* ================================================================= *)
(** ** Dictionaries *)

Fixpoint dict_get (d : list (pystr * pyval)) (k : pystr) : option pyval :=
  match d with
  | [] => None
  | (k', v) :: d' => if pystr_eqb k' k then Some v else dict_get d' k
  end.

(** [d[k] = v]: replaces in place, or appends. *)
Fixpoint dict_set (d : list (pystr * pyval)) (k : pystr) (v : pyval)
  : list (pystr * pyval) :=
  match d with
  | [] => [(k, v)]
  | (k', v') :: d' =>
    if pystr_eqb k' k then (k', v) :: d' else (k', v') :: dict_set d' k v
  end.

(** [o[k]] with a [str] key. *)
Definition getitem (o : pyval) (k : pystr) : outcome pyval :=
  match o with
  | VDict d =>
    match dict_get d k with
    | Some v => Ok v
    | None => Raise (Exc KeyError "%r" [VStr k])
    end
  | _ => Raise (Exc TypeError "object is not subscriptable with a str" [o])
  end.

(** [o.get(k, default)]. *)
Definition get_default (o : pyval) (k : pystr) (default : pyval) : outcome pyval :=
  match o with
  | VDict d =>
    match dict_get d k with
    | Some v => Ok v
    | None => Ok default
    end
  | _ => Raise (Exc AttributeError "object has no attribute 'get'" [o])
  end.

(* ================================================================= *)
(** ** The sensor object, the broker and the host *)

(** [pika.BlockingConnection] and its channel, as handles. *)
Inductive connection : Type := BlockingConnection_obj.
Inductive channel_t : Type := BlockingChannel_obj.

(** The attributes [__init__] sets. *)
Record sensor : Type := Sensor {
  host : pyval;
  port : pyval;
  username : pyval;
  password : pyval;
  vhost : pyval;
  socket_timeout : pyval;
  blocked_connection_timeout : pyval;
  heartbeat : pyval;
  queues : list pyval;
  deserialization_method : pyval;
  conn : option connection;
  channel : option channel_t
}.

(** The closure [callback] that [setup] defines in its loop.  Its only
    captured data besides [self] is the default value of the parameter
    [queue_copy], evaluated when the [def] is executed. *)
Record callback : Type := Callback { queue_copy : pyval }.

Inductive level : Type := DEBUG | INFO | ERROR.

Inductive logarg : Type :=
| LVal (v : pyval)
| LExcType (c : exc_class).

(** What the sensor does to the outside, in order. *)
Inductive event : Type :=
| Log (lvl : level) (fmt : string) (args : list logarg)
| Connect (params : list (pystr * pyval))
| OpenChannel
| BasicQos (prefetch_count : Z)
| QueueDeclare (queue : pyval) (durable : bool)
| BasicConsume (queue : pyval) (cb : callback)
| Dispatch (trigger : pystr) (payload : pyval)
| BasicAck (delivery_tag : N)
| StartConsuming
| ConnClose.

Record world : Type := World {
  self : sensor;
  trace : list event;
  consumers : list (pyval * callback)
}.

(** What is outside the repository: the two deserializers of the standard
    library, the broker's answer to a connection attempt and the host's
    answer to a dispatch ([None]: the call returns).  The other calls on
    the channel and the logger return.  The answers depend on the arguments
    of the call alone. *)
Class Runtime : Type := {
  json_loads : bytes -> outcome pyval;
  pickle_loads : bytes -> outcome pyval;
  BlockingConnection : list (pystr * pyval) -> option exn;
  sensor_service_dispatch : pystr -> pyval -> option exn
}.

(* ================================================================= *)
(** ** State and exceptions *)

(** A computation keeps the effects it had before it raised. *)
Definition M (A : Type) : Type := world -> outcome A * world.

Definition ret {A} (a : A) : M A := fun w => (Ok a, w).
Definition raise {A} (e : exn) : M A := fun w => (Raise e, w).

Definition bind {A B} (c : M A) (k : A -> M B) : M B :=
  fun w =>
    match c w with
    | (Ok a, w') => k a w'
    | (Raise e, w') => (Raise e, w')
    end.

Definition lift {A} (o : outcome A) : M A := fun w => (o, w).

Definition bindO {A B} (c : outcome A) (k : A -> outcome B) : outcome B :=
  match c with
  | Ok a => k a
  | Raise e => Raise e
  end.

Declare Scope py_scope.
Delimit Scope py_scope with py.
Notation "x <- c ;; k" := (bind c (fun x => k))
  (at level 100, c at next level, right associativity) : py_scope.
Notation "c ;; k" := (bind c (fun _ => k))
  (at level 100, right associativity) : py_scope.
Notation "x <~ c ;; k" := (bindO c (fun x => k))
  (at level 100, c at next level, right associativity) : py_scope.
Local Open Scope py_scope.

Definition get_self : M sensor := fun w => (Ok (self w), w).

Definition emit (ev : event) : M unit :=
  fun w => (Ok tt, World (self w) (trace w ++ [ev]) (consumers w)).

Definition with_conn (s : sensor) (c : connection) : sensor :=
  Sensor (host s) (port s) (username s) (password s) (vhost s)
         (socket_timeout s) (blocked_connection_timeout s) (heartbeat s)
         (queues s) (deserialization_method s) (Some c) (channel s).

Definition with_channel (s : sensor) (c : channel_t) : sensor :=
  Sensor (host s) (port s) (username s) (password s) (vhost s)
         (socket_timeout s) (blocked_connection_timeout s) (heartbeat s)
         (queues s) (deserialization_method s) (conn s) (Some c).

(** [self.conn = c] *)
Definition set_conn (c : connection) : M unit :=
  fun w => (Ok tt, World (with_conn (self w) c) (trace w) (consumers w)).

(** [self.channel = c] *)
Definition set_channel (c : channel_t) : M unit :=
  fun w => (Ok tt, World (with_channel (self w) c) (trace w) (consumers w)).

Definition add_consumer (q : pyval) (cb : callback) : M unit :=
  fun w => (Ok tt, World (self w) (trace w) (consumers w ++ [(q, cb)])).

(** [try: body finally: fin].  The [finally] block always runs; if it
    raises, its exception replaces the outcome of the body. *)
Definition try_finally {A} (body : M A) (fin : M unit) : M A :=
  fun w =>
    let (r, w1) := body w in
    match fin w1 with
    | (Ok _, w2) => (r, w2)
    | (Raise e, w2) => (Raise e, w2)
    end.

(** [try: body except: handler] (a bare [except] catches everything). *)
Definition try_except {A} (body : M A) (handler : exn -> M A) : M A :=
  fun w =>
    match body w with
    | (Ok a, w1) => (Ok a, w1)
    | (Raise e, w1) => handler e w1
    end.

(** [for x in l: f x]. *)
Fixpoint for_each {A} (l : list A) (f : A -> M unit) : M unit :=
  match l with
  | [] => ret tt
  | x :: l' => f x ;; for_each l' f
  end.

Definition logger (lvl : level) (fmt : string) (args : list logarg) : M unit :=
  emit (Log lvl fmt args).

(* ================================================================= *)
(** ** [queues_sensor.py] *)

(** The [method] frame and the [properties] the broker passes to a consumer
    callback. *)
Record deliver_method : Type := Deliver { delivery_tag : N }.
Inductive basic_properties : Type := BasicProperties.

(** One message handed to a consumer by the consumption loop. *)
Record delivery : Type := Delivery {
  consumer_index : nat;
  method_frame : deliver_method;
  properties_frame : basic_properties;
  raw_body : bytes
}.

Section Sensor.

Context {rt : Runtime}.

(** [DESERIALIZATION_FUNCTIONS = {'json': json.loads, 'pickle': pickle.loads}] *)
Definition DESERIALIZATION_FUNCTIONS : list (pystr * (bytes -> outcome pyval)) :=
  [ (py "json", json_loads); (py "pickle", pickle_loads) ].

(** [x in DESERIALIZATION_FUNCTIONS.keys()] *)
Definition in_keys (x : pyval) : outcome bool :=
  match x with
  | VStr k =>
    Ok (existsb (fun kv => pystr_eqb (fst kv) k) DESERIALIZATION_FUNCTIONS)
  | _ =>
    if hashable x then Ok false
    else Raise (Exc TypeError "unhashable type" [x])
  end.

(** [DESERIALIZATION_FUNCTIONS[x]] *)
Definition lookup_function (x : pyval) : outcome (bytes -> outcome pyval) :=
  match x with
  | VStr k =>
    match find (fun kv => pystr_eqb (fst kv) k) DESERIALIZATION_FUNCTIONS with
    | Some kv => Ok (snd kv)
    | None => Raise (Exc KeyError "%r" [x])
    end
  | _ =>
    if hashable x then Raise (Exc KeyError "%r" [x])
    else Raise (Exc TypeError "unhashable type" [x])
  end.

(** [self._config['sensor_config']] *)
Definition sensor_config (config : pyval) : outcome pyval :=
  getitem config (py "sensor_config").

(** [RabbitMQQueueSensor.__init__]; [config] is what the base class keeps as
    [self._config]. *)
Definition __init__ (config : pyval) : outcome sensor :=
  host_ <~ (sc <~ sensor_config config ;; getitem sc (py "host")) ;;
  port_ <~ (sc <~ sensor_config config ;; get_default sc (py "port") (VInt 5672)) ;;
  username_ <~ (sc <~ sensor_config config ;; get_default sc (py "username") VNone) ;;
  password_ <~ (sc <~ sensor_config config ;; get_default sc (py "password") VNone) ;;
  vhost_ <~ (sc <~ sensor_config config ;; get_default sc (py "vhost") VNone) ;;
  socket_timeout_ <~
    (sc <~ sensor_config config ;; get_default sc (py "socket_timeout") (VInt 60)) ;;
  blocked_connection_timeout_ <~
    (sc <~ sensor_config config ;;
     get_default sc (py "blocked_connection_timeout") (VInt 60)) ;;
  heartbeat_ <~
    (sc <~ sensor_config config ;; get_default sc (py "heartbeat") (VInt 600)) ;;
  queue_sensor_config <~
    (sc <~ sensor_config config ;; getitem sc (py "rabbitmq_queue_sensor")) ;;
  queues0 <~ getitem queue_sensor_config (py "queues") ;;
  let queues_ := match queues0 with VList l => l | _ => [queues0] end in
  deserialization_method_ <~
    getitem queue_sensor_config (py "deserialization_method") ;;
  invalid <~
    (if truthy deserialization_method_
     then (known <~ in_keys deserialization_method_ ;; Ok (negb known))
     else Ok false) ;;
  if invalid : bool
  then Raise (Exc ValueError "Invalid deserialization method specified: %s"
                  [deserialization_method_])
  else Ok (Sensor host_ port_ username_ password_ vhost_ socket_timeout_
                  blocked_connection_timeout_ heartbeat_ queues_
                  deserialization_method_ None None).

(** [_deserialize_body]: only [Exception] and its subclasses are caught. *)
Definition _deserialize_body (body : bytes) : M pyval :=
  s <- get_self ;;
  if negb (truthy (deserialization_method s)) then ret (VBytes body)
  else
    deserialization_func <- lift (lookup_function (deserialization_method s)) ;;
    match deserialization_func body with
    | Ok v => ret v
    | Raise e => if is_Exception (exc_type e) then ret (VBytes body) else raise e
    end.

(** [self._sensor_service.dispatch(trigger=..., payload=...)] *)
Definition dispatch (trigger : pystr) (payload : pyval) : M unit :=
  emit (Dispatch trigger payload) ;;
  match sensor_service_dispatch trigger payload with
  | None => ret tt
  | Some e => raise e
  end.

(** [self.channel.basic_ack(delivery_tag=...)] *)
Definition basic_ack (tag : N) : M unit :=
  s <- get_self ;;
  match channel s with
  | Some _ => emit (BasicAck tag)
  | None => raise (Exc AttributeError
                       "'NoneType' object has no attribute 'basic_ack'" [])
  end.

(** [_dispatch_trigger] *)
Definition _dispatch_trigger (ch : channel_t) (method : deliver_method)
    (properties : basic_properties) (body : bytes) (queue : pyval) : M unit :=
  body1 <- _deserialize_body body ;;
  logger DEBUG "Received message for queue %s with body %s"
         [LVal queue; LVal body1] ;;
  body2 <- lift (decode_utf8 body1) ;;
  let payload := VDict [(py "queue", queue); (py "body", VStr body2)] in
  try_finally (dispatch (py "rabbitmq.new_message") payload)
              (basic_ack (delivery_tag method)).

(** Calling the closure with the four positional arguments the broker
    passes: [queue_copy] takes its default. *)
Definition call_callback (cb : callback) (ch : channel_t)
    (method : deliver_method) (properties : basic_properties) (body : bytes)
  : M unit :=
  _dispatch_trigger ch method properties body (queue_copy cb).

(** The dictionary [connection_params] of [setup], in insertion order. *)
Definition connection_params (s : sensor) : list (pystr * pyval) :=
  let p0 := [ (py "host", host s);
              (py "port", port s);
              (py "socket_timeout", socket_timeout s);
              (py "blocked_connection_timeout", blocked_connection_timeout s);
              (py "heartbeat", heartbeat s) ] in
  let p1 := if truthy (username s) && truthy (password s)
            then dict_set p0 (py "credentials")
                          (VPlainCredentials (username s) (password s))
            else p0 in
  if truthy (vhost s) then dict_set p1 (py "virtual_host") (vhost s) else p1.

(** The body of the loop over [self.queues]. *)
Definition consume_queue (queue : pyval) : M unit :=
  logger INFO "Consuming queue %s" [LVal queue] ;;
  emit (QueueDeclare queue true) ;;
  let callback := Callback queue in
  emit (BasicConsume queue callback) ;;
  add_consumer queue callback.

(** [setup] *)
Definition setup : M unit :=
  s <- get_self ;;
  let params := connection_params s in
  for_each params (fun iv =>
    logger DEBUG "Connecting to RabbitMQ with %s = %r"
           [LVal (VStr (fst iv)); LVal (snd iv)]) ;;
  logger INFO "Connecting to RabbitMQ on %s:%r" [LVal (host s); LVal (port s)] ;;
  try_except
    (emit (Connect params) ;;
     match BlockingConnection params with
     | None => set_conn BlockingConnection_obj
     | Some e => raise e
     end)
    (fun e => logger ERROR "Connecting to RabbitMQ failed: %r"
                     [LExcType (exc_type e)]) ;;
  logger DEBUG "Opening channel on RabbitMQ" [] ;;
  s1 <- get_self ;;
  match conn s1 with
  | None => raise (Exc AttributeError
                       "'NoneType' object has no attribute 'channel'" [])
  | Some _ => emit OpenChannel ;; set_channel BlockingChannel_obj
  end ;;
  logger DEBUG "Setting QOS on RabbitMQ Channel" [] ;;
  emit (BasicQos 1) ;;
  logger INFO "Connected to RabbitMQ on %s:%r" [LVal (host s); LVal (port s)] ;;
  s2 <- get_self ;;
  for_each (queues s2) consume_queue.

(** The consumption loop hands a delivery to the callback of the consumer
    it is addressed to. *)
Definition deliver (d : delivery) : M unit :=
  fun w =>
    match nth_error (consumers w) (consumer_index d) with
    | Some (_, cb) =>
      call_callback cb BlockingChannel_obj (method_frame d)
                    (properties_frame d) (raw_body d) w
    | None => (Ok tt, w)
    end.

(** [run]: [start_consuming] blocks and serves the deliveries one after the
    other; an exception out of a callback ends the loop. *)
Definition run (deliveries : list delivery) : M unit :=
  s <- get_self ;;
  logger INFO "Starting to consume messages from RabbitMQ for %s"
         [LVal (VList (queues s))] ;;
  match channel s with
  | None => raise (Exc AttributeError
                       "'NoneType' object has no attribute 'start_consuming'" [])
  | Some _ => emit StartConsuming ;; for_each deliveries deliver
  end.

(** [update_trigger], [add_trigger], [remove_trigger]: [pass]. *)
Definition update_trigger (trigger : pyval) : M unit := ret tt.
Definition add_trigger (trigger : pyval) : M unit := ret tt.
Definition remove_trigger (trigger : pyval) : M unit := ret tt.

(** [cleanup] *)
Definition cleanup : M unit :=
  s <- get_self ;;
  match conn s with
  | Some _ => emit ConnClose
  | None => ret tt
  end.

End Sensor.

(* ================================================================= *)
(** ** A runtime to run the sensor on concrete messages *)

(** The results below are stated for every [Runtime].  To execute the
    sensor on concrete bodies, [CPython] gives the two deserializers on a
    fragment of their input language: JSON texts in UTF-8 made of objects,
    arrays, strings without [\u] escapes, integers and the three literals;
    pickles of one short [bytes] object (protocol 3 and up, unframed).
    Input outside the fragment is answered with the library's decoding
    error. *)
Module CPython.

Definition is_ws (c : N) : bool :=
  ((c =? 32) || (c =? 9) || (c =? 10) || (c =? 13))%N.

Fixpoint skip_ws (s : pystr) : pystr :=
  match s with
  | c :: r => if is_ws c then skip_ws r else s
  | [] => []
  end.

Definition unescape (c : N) : option N :=
  match c with
  | 34 => Some 34 | 92 => Some 92 | 47 => Some 47
  | 98 => Some 8 | 102 => Some 12 | 110 => Some 10
  | 114 => Some 13 | 116 => Some 9
  | _ => None
  end%N.

(** The characters of a string up to its closing quote. *)
Fixpoint scan_string (s : pystr) (acc : pystr) : option (pystr * pystr) :=
  match s with
  | [] => None
  | c :: r =>
    if (c =? 34)%N then Some (rev acc, r)
    else if (c =? 92)%N then
      match r with
      | e :: r' =>
        match unescape e with
        | Some c' => scan_string r' (c' :: acc)
        | None => None
        end
      | [] => None
      end
    else if (c <? 32)%N then None
    else scan_string r (c :: acc)
  end.

Fixpoint take_digits (s : pystr) (acc : Z) : Z * pystr :=
  match s with
  | c :: r =>
    if in_range 48 57 c then take_digits r (acc * 10 + Z.of_N (c - 48))%Z
    else (acc, s)
  | [] => (acc, [])
  end.

Definition starts_fraction (s : pystr) : bool :=
  match s with
  | c :: _ => ((c =? 46) || (c =? 101) || (c =? 69))%N
  | [] => false
  end.

Definition scan_int (s : pystr) : option (pyval * pystr) :=
  let (sign, s1) := match s with
                    | c :: r => if (c =? 45)%N then ((-1)%Z, r) else (1%Z, s)
                    | [] => (1%Z, s)
                    end in
  match s1 with
  | c :: r =>
    if (c =? 48)%N then
      if starts_fraction r then None else Some (VInt 0, r)
    else if in_range 49 57 c then
      let (n, r') := take_digits s1 0 in
      if starts_fraction r' then None else Some (VInt (sign * n), r')
    else None
  | [] => None
  end.

Fixpoint strip_prefix (p s : pystr) : option pystr :=
  match p, s with
  | [], _ => Some s
  | a :: p', c :: s' => if (a =? c)%N then strip_prefix p' s' else None
  | _ :: _, [] => None
  end.

Fixpoint scan_value (fuel : nat) (s : pystr) {struct fuel}
  : option (pyval * pystr) :=
  match fuel with
  | O => None
  | S fuel' =>
    match s with
    | [] => None
    | c :: r =>
      if (c =? 34)%N then
        match scan_string r [] with
        | Some (k, r') => Some (VStr k, r')
        | None => None
        end
      else if (c =? 123)%N then
        match skip_ws r with
        | c' :: r' =>
          if (c' =? 125)%N then Some (VDict [], r')
          else scan_members fuel' (c' :: r') []
        | [] => None
        end
      else if (c =? 91)%N then
        match skip_ws r with
        | c' :: r' =>
          if (c' =? 93)%N then Some (VList [], r')
          else scan_elements fuel' (c' :: r') []
        | [] => None
        end
      else if (c =? 110)%N then
        option_map (pair VNone) (strip_prefix (py "null") s)
      else if (c =? 116)%N then
        option_map (pair (VBool true)) (strip_prefix (py "true") s)
      else if (c =? 102)%N then
        option_map (pair (VBool false)) (strip_prefix (py "false") s)
      else scan_int s
    end
  end
with scan_members (fuel : nat) (s : pystr) (acc : list (pystr * pyval))
       {struct fuel} : option (pyval * pystr) :=
  match fuel with
  | O => None
  | S fuel' =>
    match s with
    | c :: r =>
      if (c =? 34)%N then
        match scan_string r [] with
        | Some (k, r1) =>
          match skip_ws r1 with
          | c2 :: r2 =>
            if (c2 =? 58)%N then
              match scan_value fuel' (skip_ws r2) with
              | Some (v, r3) =>
                let acc' := dict_set acc k v in
                match skip_ws r3 with
                | c4 :: r4 =>
                  if (c4 =? 44)%N then scan_members fuel' (skip_ws r4) acc'
                  else if (c4 =? 125)%N then Some (VDict acc', r4)
                  else None
                | [] => None
                end
              | None => None
              end
            else None
          | [] => None
          end
        | None => None
        end
      else None
    | [] => None
    end
  end
with scan_elements (fuel : nat) (s : pystr) (acc : list pyval)
       {struct fuel} : option (pyval * pystr) :=
  match fuel with
  | O => None
  | S fuel' =>
    match scan_value fuel' s with
    | Some (v, r) =>
      match skip_ws r with
      | c :: r' =>
        if (c =? 44)%N then scan_elements fuel' (skip_ws r') (acc ++ [v])
        else if (c =? 93)%N then Some (VList (acc ++ [v]), r')
        else None
      | [] => None
      end
    | None => None
    end
  end.

Definition json_error : exn := Exc JSONDecodeError "not a JSON document" [].

Definition json_loads (b : bytes) : outcome pyval :=
  match utf8_decode b with
  | None => Raise (Exc UnicodeDecodeError "'utf-8' codec can't decode byte" [VBytes b])
  | Some s =>
    match scan_value (S (List.length s)) (skip_ws s) with
    | Some (v, r) =>
      match skip_ws r with
      | [] => Ok v
      | _ => Raise (Exc JSONDecodeError "Extra data" [])
      end
    | None => Raise json_error
    end
  end.

Definition pickle_error : exn := Exc UnpicklingError "invalid load key" [].

(** [PROTO p; SHORT_BINBYTES n data; (BINPUT i | MEMOIZE)?; STOP]; what
    follows [STOP] is not read. *)
Definition pickle_loads (b : bytes) : outcome pyval :=
  match map Byte.to_N b with
  | 128%N :: p :: 67%N :: n :: _ =>
    if (in_range 3 5 p && (N.to_nat n <=? List.length b - 4)%nat)%bool then
      let data := firstn (N.to_nat n) (skipn 4 b) in
      match map Byte.to_N (skipn (4 + N.to_nat n) b) with
      | 46%N :: _ => Ok (VBytes data)
      | 113%N :: _ :: 46%N :: _ => Ok (VBytes data)
      | 148%N :: 46%N :: _ => Ok (VBytes data)
      | _ => Raise pickle_error
      end
    else Raise pickle_error
  | _ => Raise pickle_error
  end.

(** A broker that accepts the connection and a host that accepts every
    event. *)
Definition healthy : Runtime :=
  Build_Runtime json_loads pickle_loads (fun _ => None) (fun _ _ => None).

Definition connection_refused : exn :=
  Exc AMQPConnectionError "Connection refused" [].

Definition host_failure : exn :=
  Exc RuntimeError "dispatch failed" [].

(** A broker that refuses the connection. *)
Definition unreachable_broker : Runtime :=
  Build_Runtime json_loads pickle_loads (fun _ => Some connection_refused) (fun _ _ => None).

(** A host whose dispatch raises. *)
Definition failing_host : Runtime :=
  Build_Runtime json_loads pickle_loads (fun _ => None) (fun _ _ => Some host_failure).

End CPython.

(* ================================================================= *)
(** ** Observations on a run *)

(** What a computation started in [w] and finished in [w'] added to the
    trace. *)
Definition new_events (w w' : world) : list event :=
  skipn (List.length (trace w)) (trace w').

Definition is_ack (ev : event) : bool :=
  match ev with
  | BasicAck _ => true
  | _ => false
  end.

Definition is_dispatch (ev : event) : bool :=
  match ev with
  | Dispatch _ _ => true
  | _ => false
  end.

Definition is_connect (ev : event) : bool :=
  match ev with
  | Connect _ => true
  | _ => false
  end.

(** The acknowledgments, the dispatches and the connection attempts among
    some events. *)
Definition acks (evs : list event) : list event := filter is_ack evs.
Definition dispatches (evs : list event) : list event := filter is_dispatch evs.
Definition connect_count (evs : list event) : nat :=
  List.length (filter is_connect evs).

(** The event [{"queue": queue, "body": body}]. *)
Definition forwarded_event (queue : pyval) (body : pystr) : pyval :=
  VDict [(py "queue", queue); (py "body", VStr body)].

Definition new_message : pystr := py "rabbitmq.new_message".

(** The trace of a callback that reached the dispatch call. *)
Definition forwarding_events (queue body1 : pyval) (text : pystr) (tag : N)
  : list event :=
  [ Log DEBUG "Received message for queue %s with body %s"
        [LVal queue; LVal body1];
    Dispatch new_message (forwarded_event queue text);
    BasicAck tag ].

(** The outcome of the host's dispatch, as the outcome of the callback. *)
Definition dispatch_outcome {rt : Runtime} (queue : pyval) (text : pystr)
  : outcome unit :=
  match sensor_service_dispatch new_message (forwarded_event queue text) with
  | None => Ok tt
  | Some e => Raise e
  end.

(** The trace of [setup] up to and including the connection attempt. *)
Definition connecting_events (s : sensor) : list event :=
  map (fun iv => Log DEBUG "Connecting to RabbitMQ with %s = %r"
                     [LVal (VStr (fst iv)); LVal (snd iv)])
      (connection_params s)
  ++ [ Log INFO "Connecting to RabbitMQ on %s:%r" [LVal (host s); LVal (port s)];
       Connect (connection_params s) ].

(** The trace of one iteration of the loop over the queues. *)
Definition subscription_events (q : pyval) : list event :=
  [ Log INFO "Consuming queue %s" [LVal q];
    QueueDeclare q true;
    BasicConsume q (Callback q) ].

(** The trace of [setup] from the opening of the channel on. *)
Definition channel_events (s : sensor) : list event :=
  [ Log DEBUG "Opening channel on RabbitMQ" [];
    OpenChannel;
    Log DEBUG "Setting QOS on RabbitMQ Channel" [];
    BasicQos 1;
    Log INFO "Connected to RabbitMQ on %s:%r" [LVal (host s); LVal (port s)] ]
  ++ flat_map subscription_events (queues s).

(** The log entry of the [except] clause of [setup]. *)
Definition connect_failure_log (e : exn) : event :=
  Log ERROR "Connecting to RabbitMQ failed: %r" [LExcType (exc_type e)].

Definition no_channel_attribute : exn :=
  Exc AttributeError "'NoneType' object has no attribute 'channel'" [].

(** A world whose sensor object is [s], before anything has happened. *)
Definition fresh (s : sensor) : world := World s [] [].

(** The pack configuration with the given queues and deserialization
    method entries and the defaults everywhere else. *)
Definition sample_config (qs method : pyval) : pyval :=
  VDict [ (py "sensor_config",
           VDict [ (py "host", VStr (py "localhost"));
                   (py "rabbitmq_queue_sensor",
                    VDict [ (py "queues", qs);
                            (py "deserialization_method", method) ]) ]) ].

(** The same without a [deserialization_method] entry. *)
Definition config_without_method (qs : pyval) : pyval :=
  VDict [ (py "sensor_config",
           VDict [ (py "host", VStr (py "localhost"));
                   (py "rabbitmq_queue_sensor",
                    VDict [ (py "queues", qs) ]) ]) ].

(** The value of a [.get] with a default on the [sensor_config] entries. *)
Definition entry (sc : list (pystr * pyval)) (k : string) (default : pyval)
  : pyval :=
  match dict_get sc (py k) with Some v => v | None => default end.

(** A configuration seen from the path to the [queues] entry: [top],
    [sc] and [qc] are the other entries of the three nested dictionaries. *)
Definition config_with_queues (top sc qc : list (pystr * pyval)) (qs : pyval)
  : pyval :=
  VDict (dict_set top (py "sensor_config")
    (VDict (dict_set sc (py "rabbitmq_queue_sensor")
      (VDict (dict_set qc (py "queues") qs))))).

(** [__init__], then [setup], then one delivery; the events of the
    delivery and its outcome. *)
Definition construct_setup_deliver {rt : Runtime} (config : pyval)
    (d : delivery) : option (outcome unit * list event) :=
  match __init__ config with
  | Ok s =>
    match setup (fresh s) with
    | (Ok _, w1) =>
      let (r, w2) := deliver d w1 in Some (r, new_events w1 w2)
    | (Raise _, _) => None
    end
  | Raise _ => None
  end.

(** A sensor object as [__init__] and a successful [setup] leave it, and
    the world in which it consumes from [qs]. *)
Definition connected_sensor (qs : list pyval) (method : pyval) : sensor :=
  Sensor (VStr (py "localhost")) (VInt 5672) VNone VNone VNone
         (VInt 60) (VInt 60) (VInt 600) qs method
         (Some BlockingConnection_obj) (Some BlockingChannel_obj).

Definition listening (qs : list pyval) (method : pyval) : world :=
  World (connected_sensor qs method) []
        (map (fun q => (q, Callback q)) qs).

(** The sensor object [__init__] returns on [sample_config]. *)
Definition constructed (qs : list pyval) (method : pyval) : sensor :=
  Sensor (VStr (py "localhost")) (VInt 5672) VNone VNone VNone
         (VInt 60) (VInt 60) (VInt 600) qs method None None.

(** The entries of the two inner dictionaries of [sample_config]. *)
Definition sample_queue_entries (qs method : pyval) : list (pystr * pyval) :=
  [ (py "queues", qs); (py "deserialization_method", method) ].

Definition sample_sensor_entries (qs method : pyval) : list (pystr * pyval) :=
  [ (py "host", VStr (py "localhost"));
    (py "rabbitmq_queue_sensor", VDict (sample_queue_entries qs method)) ].

(** The first delivery to the first consumer. *)
Definition first_delivery (body : bytes) : delivery :=
  Delivery 0 (Deliver 1) BasicProperties body.

(** The body [b'{"id":1}']. *)
Definition body_id1 : bytes := [x7b; x22; x69; x64; x22; x3a; x31; x7d].

(* ================================================================= *)
(** ** Further observations *)

(** The queues declared, with their durability, the subscriptions made and
    the prefetch counts set, among some events. *)
Definition declared (evs : list event) : list (pyval * bool) :=
  flat_map (fun ev => match ev with
                      | QueueDeclare q d => [(q, d)]
                      | _ => []
                      end) evs.

Definition consumed (evs : list event) : list (pyval * callback) :=
  flat_map (fun ev => match ev with
                      | BasicConsume q cb => [(q, cb)]
                      | _ => []
                      end) evs.

Definition qos_settings (evs : list event) : list Z :=
  flat_map (fun ev => match ev with
                      | BasicQos n => [n]
                      | _ => []
                      end) evs.

Definition is_close (ev : event) : bool :=
  match ev with
  | ConnClose => true
  | _ => false
  end.

Definition closes (evs : list event) : list event := filter is_close evs.

(** The [try]/[except Exception] of [_deserialize_body] applied to the
    result of a deserializer. *)
Definition recover (body : bytes) (r : outcome pyval) : outcome pyval :=
  match r with
  | Ok v => Ok v
  | Raise e => if is_Exception (exc_type e) then Ok (VBytes body) else Raise e
  end.

Definition is_ascii (body : bytes) : bool :=
  forallb (fun b => (Byte.to_N b <? 128)%N) body.

(** A delivery addressed to a registered consumer whose body is UTF-8. *)
Definition deliverable (cs : list (pyval * callback)) (d : delivery) : bool :=
  match nth_error cs (consumer_index d), utf8_decode (raw_body d) with
  | Some _, Some _ => true
  | _, _ => false
  end.

(** The events of such a delivery when no deserialization method is
    configured. *)
Definition delivery_events (cs : list (pyval * callback)) (d : delivery)
  : list event :=
  match nth_error cs (consumer_index d), utf8_decode (raw_body d) with
  | Some (_, cb), Some text =>
    forwarding_events (queue_copy cb) (VBytes (raw_body d)) text
                      (delivery_tag (method_frame d))
  | _, _ => []
  end.

Definition expected_acks (ds : list delivery) : list event :=
  map (fun d => BasicAck (delivery_tag (method_frame d))) ds.

Definition no_basic_ack_attribute : exn :=
  Exc AttributeError "'NoneType' object has no attribute 'basic_ack'" [].

Definition no_start_consuming_attribute : exn :=
  Exc AttributeError "'NoneType' object has no attribute 'start_consuming'" [].

(** The first log entry of [run]. *)
Definition starting_log (s : sensor) : event :=
  Log INFO "Starting to consume messages from RabbitMQ for %s"
      [LVal (VList (queues s))].

(** Concrete configurations, sensors and worlds. *)
Definition orders : pyval := VStr (py "orders").
Definition orders_config : pyval := sample_config orders VNone.
Definition orders_sensor : sensor := constructed [orders] VNone.
Definition orders_world : world := listening [orders] VNone.
Definition jobs_world (method : string) : world :=
  listening [VStr (py "jobs")] (VStr (py method)).

(** The configuration whose [rabbitmq_queue_sensor] entry is [qc]. *)
Definition queue_config (qc : pyval) : pyval :=
  VDict [ (py "sensor_config",
           VDict [ (py "host", VStr (py "localhost"));
                   (py "rabbitmq_queue_sensor", qc) ]) ].

Definition queue_config_entries (qc : pyval) : list (pystr * pyval) :=
  [ (py "host", VStr (py "localhost")); (py "rabbitmq_queue_sensor", qc) ].

(** The protocol 3 pickle of [b"hi"]. *)
Definition pickled_hi : bytes :=
  [x80; x03; x43; x02; x68; x69; x71; x00; x2e].

(** A runtime in which unpickling ends in [SystemExit], as it does on a
    pickle that calls [sys.exit]. *)
Definition exiting_loads (b : bytes) : outcome pyval :=
  Raise (Exc SystemExit "" []).

Definition exiting_pickle : Runtime :=
  Build_Runtime CPython.json_loads exiting_loads
                (fun _ => None) (fun _ _ => None).

(** Deliveries from queues a, b, a to the consumers of [["a"; "b"]]. *)
Definition two_queues_world : world :=
  listening [VStr (py "a"); VStr (py "b")] VNone.

Definition three_deliveries : list delivery :=
  [ Delivery 0 (Deliver 1) BasicProperties (bytes_of "x");
    Delivery 1 (Deliver 2) BasicProperties (bytes_of "y");
    Delivery 0 (Deliver 3) BasicProperties (bytes_of "z") ].

(** What [__init__] read from the configuration. *)
Definition configuration (s : sensor) :=
  (host s, port s, username s, password s, vhost s, socket_timeout s,
   blocked_connection_timeout s, heartbeat s, queues s,
   deserialization_method s).

(** The exception [__init__] raises on a method that is neither empty nor
    a string. *)
Definition method_rejection (method : pyval) : exn :=
  if hashable method
  then Exc ValueError "Invalid deserialization method specified: %s" [method]
  else Exc TypeError "unhashable type" [method].

(* ================================================================= *)
(** ** Basic facts *)

Lemma pystr_eqb_refl (a : pystr) : pystr_eqb a a = true.
Proof. unfold pystr_eqb. destruct (list_eq_dec N.eq_dec a a); congruence. Qed.

Lemma pystr_eqb_eq (a b : pystr) : pystr_eqb a b = true <-> a = b.
Proof.
  unfold pystr_eqb. destruct (list_eq_dec N.eq_dec a b); split; congruence.
Qed.

Lemma pystr_eqb_neq (a b : pystr) : a <> b -> pystr_eqb a b = false.
Proof.
  intros H. unfold pystr_eqb. destruct (list_eq_dec N.eq_dec a b); congruence.
Qed.

Lemma dict_get_set_same d k v : dict_get (dict_set d k v) k = Some v.
Proof.
  induction d as [|[k' v'] d IH]; simpl.
  - now rewrite pystr_eqb_refl.
  - destruct (pystr_eqb k' k) eqn:E; simpl; rewrite E; auto.
Qed.

Lemma dict_get_set_other d k k' v :
  k <> k' -> dict_get (dict_set d k v) k' = dict_get d k'.
Proof.
  intros Hk. induction d as [|[k0 v0] d IH]; simpl.
  - now rewrite (pystr_eqb_neq _ _ Hk).
  - destruct (pystr_eqb k0 k) eqn:E; simpl.
    + apply pystr_eqb_eq in E. subst k0. now rewrite (pystr_eqb_neq _ _ Hk).
    + destruct (pystr_eqb k0 k'); auto.
Qed.

Lemma new_events_app w s evs c :
  new_events w (World s (trace w ++ evs) c) = evs.
Proof.
  unfold new_events. simpl.
  rewrite skipn_app, skipn_all, Nat.sub_diag. reflexivity.
Qed.

Lemma new_events_nil w : new_events w w = [].
Proof. unfold new_events. apply skipn_all. Qed.

Section Callback.

Context {rt : Runtime}.

(** Deserialization reads the sensor object and touches nothing. *)
Lemma deserialize_body_world body w : snd (_deserialize_body body w) = w.
Proof.
  unfold _deserialize_body, bind, get_self, lift, ret, raise.
  destruct (truthy (deserialization_method (self w))); simpl; [|reflexivity].
  destruct (lookup_function (deserialization_method (self w))) as [f|e];
    [|reflexivity].
  destruct (f body) as [v|e]; [reflexivity|].
  destruct (is_Exception (exc_type e)); reflexivity.
Qed.

Lemma deserialize_body_pair body w :
  _deserialize_body body w = (fst (_deserialize_body body w), w).
Proof.
  rewrite <- (deserialize_body_world body w) at 3.
  apply surjective_pairing.
Qed.

(** With no method configured the body is returned as it came. *)
Lemma deserialize_body_identity body w :
  truthy (deserialization_method (self w)) = false ->
  _deserialize_body body w = (Ok (VBytes body), w).
Proof.
  intros H. unfold _deserialize_body, bind, get_self. rewrite H. reflexivity.
Qed.

(** The callback once deserialization and decoding have gone through: the
    event is dispatched, the delivery acknowledged, and the outcome is the
    one of the dispatch. *)
Lemma dispatch_trigger_reached ch m p body q w c v text :
  channel (self w) = Some c ->
  fst (_deserialize_body body w) = Ok v ->
  decode_utf8 v = Ok text ->
  _dispatch_trigger ch m p body q w =
  (dispatch_outcome q text,
   World (self w) (trace w ++ forwarding_events q v text (delivery_tag m))
         (consumers w)).
Proof.
  intros Hc Hd Hu.
  unfold _dispatch_trigger, bind at 1.
  rewrite deserialize_body_pair, Hd.
  unfold dispatch_outcome, forwarding_events, new_message, forwarded_event.
  cbv [try_finally dispatch basic_ack logger bind emit lift get_self ret raise].
  simpl. rewrite Hu. simpl.
  destruct (sensor_service_dispatch _ _); simpl; rewrite Hc; simpl;
    repeat rewrite <- app_assoc; reflexivity.
Qed.

(** The callback when [decode] raises: the exception leaves the callback
    before the [try] statement is entered. *)
Lemma dispatch_trigger_undecodable ch m p body q w v e :
  fst (_deserialize_body body w) = Ok v ->
  decode_utf8 v = Raise e ->
  _dispatch_trigger ch m p body q w =
  (Raise e,
   World (self w)
         (trace w ++ [Log DEBUG "Received message for queue %s with body %s"
                          [LVal q; LVal v]])
         (consumers w)).
Proof.
  intros Hd Hu.
  unfold _dispatch_trigger, bind at 1.
  rewrite deserialize_body_pair, Hd.
  unfold bind, logger, emit, lift. simpl. rewrite Hu. reflexivity.
Qed.

(** The callback when deserialization itself lets an exception through. *)
Lemma dispatch_trigger_deserializer_raises ch m p body q w e :
  fst (_deserialize_body body w) = Raise e ->
  _dispatch_trigger ch m p body q w = (Raise e, w).
Proof.
  intros Hd.
  unfold _dispatch_trigger, bind at 1.
  rewrite deserialize_body_pair, Hd. reflexivity.
Qed.

(** Every dispatch of the callback is followed by the acknowledgment, and
    it is the last thing the callback does on an open channel. *)
Lemma dispatch_trigger_events ch m p body q w c trig payload :
  channel (self w) = Some c ->
  In (Dispatch trig payload)
     (new_events w (snd (_dispatch_trigger ch m p body q w))) ->
  exists v text,
    trig = new_message /\ payload = forwarded_event q text /\
    _dispatch_trigger ch m p body q w =
    (dispatch_outcome q text,
     World (self w) (trace w ++ forwarding_events q v text (delivery_tag m))
           (consumers w)).
Proof.
  intros Hc Hin.
  destruct (fst (_deserialize_body body w)) as [v|e] eqn:Hd.
  - destruct (decode_utf8 v) as [text|e] eqn:Hu.
    + rewrite (dispatch_trigger_reached ch m p body q w c v text Hc Hd Hu) in Hin |- *.
      simpl in Hin. rewrite new_events_app in Hin.
      unfold forwarding_events in Hin. simpl in Hin.
      destruct Hin as [H|[H|[H|[]]]]; try discriminate.
      injection H as <- <-. exists v, text. auto.
    + rewrite (dispatch_trigger_undecodable ch m p body q w v e Hd Hu) in Hin.
      simpl in Hin. rewrite new_events_app in Hin. simpl in Hin.
      destruct Hin as [H|[]]. discriminate.
  - rewrite (dispatch_trigger_deserializer_raises ch m p body q w e Hd) in Hin.
    simpl in Hin. rewrite new_events_nil in Hin. destruct Hin.
Qed.

End Callback.

Section Setup.

Context {rt : Runtime}.

Lemma for_each_param_log params w :
  for_each params
    (fun iv => logger DEBUG "Connecting to RabbitMQ with %s = %r"
                      [LVal (VStr (fst iv)); LVal (snd iv)]) w =
  (Ok tt,
   World (self w)
         (trace w ++
          map (fun iv => Log DEBUG "Connecting to RabbitMQ with %s = %r"
                             [LVal (VStr (fst iv)); LVal (snd iv)]) params)
         (consumers w)).
Proof.
  revert w. induction params as [|iv params IH]; intros w; simpl.
  - rewrite app_nil_r. destruct w; reflexivity.
  - cbv [bind logger emit]. rewrite IH. simpl.
    rewrite <- app_assoc. reflexivity.
Qed.

(** The loop over the queues registers, for each queue in turn, a callback
    holding that queue. *)
Lemma for_each_consume_queue qs w :
  for_each qs consume_queue w =
  (Ok tt,
   World (self w)
         (trace w ++ flat_map subscription_events qs)
         (consumers w ++ map (fun q => (q, Callback q)) qs)).
Proof.
  revert w. induction qs as [|q qs IH]; intros w; simpl.
  - rewrite !app_nil_r. destruct w; reflexivity.
  - cbv [bind consume_queue logger emit add_consumer]. rewrite IH. simpl.
    repeat rewrite <- app_assoc. reflexivity.
Qed.

(** [setup] when the broker accepts the connection. *)
Lemma setup_connected w :
  BlockingConnection (connection_params (self w)) = None ->
  setup w =
  (Ok tt,
   World (with_channel (with_conn (self w) BlockingConnection_obj)
                       BlockingChannel_obj)
         (trace w ++ connecting_events (self w) ++ channel_events (self w))
         (consumers w ++ map (fun q => (q, Callback q)) (queues (self w)))).
Proof.
  intros Hok. unfold setup.
  cbv [bind get_self]. rewrite for_each_param_log.
  cbv [logger emit try_except bind]. simpl. rewrite Hok.
  cbv [set_conn]. simpl. cbv [set_channel]. simpl.
  rewrite for_each_consume_queue. simpl.
  unfold connecting_events, channel_events.
  repeat (rewrite <- app_assoc; simpl). reflexivity.
Qed.

(** [setup] when the connection attempt raises and the sensor has no
    connection yet: the exception is logged, and the next statement calls
    [channel] on [None]. *)
Lemma setup_refused w e :
  conn (self w) = None ->
  BlockingConnection (connection_params (self w)) = Some e ->
  setup w =
  (Raise no_channel_attribute,
   World (self w)
         (trace w ++ connecting_events (self w)
          ++ [connect_failure_log e; Log DEBUG "Opening channel on RabbitMQ" []])
         (consumers w)).
Proof.
  intros Hconn Hko. unfold setup.
  cbv [bind get_self]. rewrite for_each_param_log.
  cbv [logger emit try_except bind raise]. simpl. rewrite Hko. simpl.
  rewrite Hconn.
  unfold connecting_events, connect_failure_log, no_channel_attribute.
  repeat (rewrite <- app_assoc; simpl). reflexivity.
Qed.

(** [setup] when the connection attempt raises on a sensor that still
    holds an earlier connection. *)
Lemma setup_refused_reconnect w e c :
  conn (self w) = Some c ->
  BlockingConnection (connection_params (self w)) = Some e ->
  setup w =
  (Ok tt,
   World (with_channel (self w) BlockingChannel_obj)
         (trace w ++ connecting_events (self w)
          ++ connect_failure_log e :: channel_events (self w))
         (consumers w ++ map (fun q => (q, Callback q)) (queues (self w)))).
Proof.
  intros Hconn Hko. unfold setup.
  cbv [bind get_self]. rewrite for_each_param_log.
  cbv [logger emit try_except bind raise]. simpl. rewrite Hko. simpl.
  rewrite Hconn. cbv [set_channel]. simpl.
  rewrite for_each_consume_queue. simpl.
  unfold connecting_events, channel_events, connect_failure_log.
  repeat (rewrite <- app_assoc; simpl). reflexivity.
Qed.

(** What holds after every [setup] that returns. *)
Lemma setup_returns w w1 :
  setup w = (Ok tt, w1) ->
  consumers w1 = consumers w ++ map (fun q => (q, Callback q)) (queues (self w))
  /\ channel (self w1) = Some BlockingChannel_obj
  /\ queues (self w1) = queues (self w)
  /\ deserialization_method (self w1) = deserialization_method (self w).
Proof.
  intros H.
  destruct (BlockingConnection (connection_params (self w))) as [e|] eqn:Hb.
  - destruct (conn (self w)) as [c|] eqn:Hc.
    + rewrite (setup_refused_reconnect w e c Hc Hb) in H.
      injection H as <-. simpl. auto.
    + rewrite (setup_refused w e Hc Hb) in H. discriminate.
  - rewrite (setup_connected w Hb) in H. injection H as <-. simpl. auto.
Qed.

End Setup.

(* ================================================================= *)
(** ** The per-message callback *)

Section CallbackProperties.

Context {rt : Runtime}.

(** C1 (as amended).  For every message delivered to [_dispatch_trigger]
    on an open channel whose body gets through deserialization and UTF-8
    decoding, exactly one acknowledgment is issued, and it carries the
    delivery tag of that message, whatever the dispatch to the host does. *)
Theorem one_ack_once_dispatch_is_reached ch m p body q w c v text :
  channel (self w) = Some c ->
  fst (_deserialize_body body w) = Ok v ->
  decode_utf8 v = Ok text ->
  acks (new_events w (snd (_dispatch_trigger ch m p body q w)))
  = [BasicAck (delivery_tag m)].
Proof.
  intros Hc Hd Hu.
  rewrite (dispatch_trigger_reached ch m p body q w c v text Hc Hd Hu).
  simpl. rewrite new_events_app. reflexivity.
Qed.

(** C4.  Whenever the dispatch call of a callback invocation raises, the
    acknowledgment of the message's delivery tag is the event that follows
    the dispatch, nothing comes after it, and the callback raises the
    exception of the dispatch. *)
Theorem dispatch_error_propagates_after_ack ch m p body q w c trig payload e :
  channel (self w) = Some c ->
  In (Dispatch trig payload)
     (new_events w (snd (_dispatch_trigger ch m p body q w))) ->
  sensor_service_dispatch trig payload = Some e ->
  fst (_dispatch_trigger ch m p body q w) = Raise e /\
  exists before,
    new_events w (snd (_dispatch_trigger ch m p body q w))
    = before ++ [Dispatch trig payload; BasicAck (delivery_tag m)].
Proof.
  intros Hc Hin He.
  destruct (dispatch_trigger_events ch m p body q w c trig payload Hc Hin)
    as (v & text & -> & -> & Hrun).
  rewrite Hrun. simpl. rewrite new_events_app. split.
  - unfold dispatch_outcome. now rewrite He.
  - eexists [_]. reflexivity.
Qed.

(** C9.  With no deserialization method configured, the callback of queue
    ["orders"] given the body [b"hello"] logs the message, dispatches the
    trigger [rabbitmq.new_message] with the payload
    [{"queue": "orders", "body": "hello"}] and acknowledges the delivery;
    it does nothing else. *)
Theorem orders_hello_is_forwarded ch m p w c :
  truthy (deserialization_method (self w)) = false ->
  channel (self w) = Some c ->
  new_events w (snd (_dispatch_trigger ch m p (bytes_of "hello")
                                       (VStr (py "orders")) w))
  = [ Log DEBUG "Received message for queue %s with body %s"
          [LVal (VStr (py "orders")); LVal (VBytes (bytes_of "hello"))];
      Dispatch (py "rabbitmq.new_message")
               (VDict [ (py "queue", VStr (py "orders"));
                        (py "body", VStr (py "hello")) ]);
      BasicAck (delivery_tag m) ].
Proof.
  intros Hm Hc.
  assert (Hd : fst (_deserialize_body (bytes_of "hello") w)
               = Ok (VBytes (bytes_of "hello")))
    by now rewrite deserialize_body_identity.
  rewrite (dispatch_trigger_reached ch m p (bytes_of "hello")
             (VStr (py "orders")) w c _ (py "hello") Hc Hd eq_refl).
  simpl. rewrite new_events_app. reflexivity.
Qed.

(** What the callback does with a deserialized value that is not a
    [bytes] object: [decode] raises [AttributeError], and the message is
    neither dispatched nor acknowledged. *)
Lemma deserialized_value_is_not_forwarded ch m p body q w v :
  fst (_deserialize_body body w) = Ok v ->
  is_bytes v = false ->
  fst (_dispatch_trigger ch m p body q w)
  = Raise (Exc AttributeError "object has no attribute 'decode'" [v])
  /\ dispatches (new_events w (snd (_dispatch_trigger ch m p body q w))) = []
  /\ acks (new_events w (snd (_dispatch_trigger ch m p body q w))) = [].
Proof.
  intros Hd Hb.
  assert (Hu : decode_utf8 v
               = Raise (Exc AttributeError "object has no attribute 'decode'" [v]))
    by (destruct v; try reflexivity; discriminate).
  rewrite (dispatch_trigger_undecodable ch m p body q w v _ Hd Hu).
  simpl. rewrite new_events_app. auto.
Qed.

(** C3 (as amended).  Under a configured deserialization method, when the
    deserializer raises an exception derived from [Exception], the raw
    bytes are the result of deserialization and the exception goes no
    further; if in addition the raw bytes are valid UTF-8, the callback
    forwards their text unchanged as the body of the event. *)
Theorem deserialization_failure_falls_back_to_raw_body
    ch m p body q w f e :
  truthy (deserialization_method (self w)) = true ->
  lookup_function (deserialization_method (self w)) = Ok f ->
  f body = Raise e ->
  is_Exception (exc_type e) = true ->
  _deserialize_body body w = (Ok (VBytes body), w) /\
  forall c text,
    channel (self w) = Some c ->
    utf8_decode body = Some text ->
    _dispatch_trigger ch m p body q w =
    (dispatch_outcome q text,
     World (self w)
           (trace w ++ forwarding_events q (VBytes body) text (delivery_tag m))
           (consumers w)).
Proof.
  intros Hm Hf Hr He.
  assert (Hd : _deserialize_body body w = (Ok (VBytes body), w)).
  { unfold _deserialize_body. cbv [bind get_self lift].
    rewrite Hm, Hf. simpl. rewrite Hr, He. reflexivity. }
  split; [exact Hd|].
  intros c text Hc Hu.
  apply dispatch_trigger_reached with (c := c).
  - exact Hc.
  - now rewrite Hd.
  - simpl. now rewrite Hu.
Qed.

End CallbackProperties.

(* ================================================================= *)
(** ** The constructor *)

Section Constructor.

Context {rt : Runtime}.

Lemma bindO_ok {A B} (c : outcome A) (k : A -> outcome B) (b : B) :
  bindO c k = Ok b -> exists a, c = Ok a /\ k a = Ok b.
Proof. destruct c as [a|e]; simpl; [eauto|discriminate]. Qed.

Lemma get_default_dict d k default :
  get_default (VDict d) k default
  = Ok (match dict_get d k with Some v => v | None => default end).
Proof. simpl. destruct (dict_get d k); reflexivity. Qed.

(** [__init__] on a configuration that has the entries read with a
    subscript: what is left is the check of the deserialization method. *)
Lemma init_with_entries config sc qc h qs0 method :
  getitem config (py "sensor_config") = Ok (VDict sc) ->
  dict_get sc (py "host") = Some h ->
  dict_get sc (py "rabbitmq_queue_sensor") = Some qc ->
  getitem qc (py "queues") = Ok qs0 ->
  getitem qc (py "deserialization_method") = Ok method ->
  __init__ config =
  (invalid <~ (if truthy method
               then (known <~ in_keys method ;; Ok (negb known))
               else Ok false) ;;
   if invalid : bool
   then Raise (Exc ValueError "Invalid deserialization method specified: %s"
                   [method])
   else Ok (Sensor h (entry sc "port" (VInt 5672))
                   (entry sc "username" VNone) (entry sc "password" VNone)
                   (entry sc "vhost" VNone)
                   (entry sc "socket_timeout" (VInt 60))
                   (entry sc "blocked_connection_timeout" (VInt 60))
                   (entry sc "heartbeat" (VInt 600))
                   (match qs0 with VList l => l | _ => [qs0] end)
                   method None None)).
Proof.
  intros Hsc Hh Hq Hqs Hm.
  unfold __init__, sensor_config. rewrite Hsc.
  cbn [bindO]. rewrite !get_default_dict.
  cbn [bindO getitem]. rewrite Hh, Hq. cbn [bindO]. rewrite Hqs, Hm.
  reflexivity.
Qed.

(** The methods [__init__] lets through are the empty ones and the keys of
    [DESERIALIZATION_FUNCTIONS]. *)
Lemma init_method_supported config s :
  __init__ config = Ok s ->
  truthy (deserialization_method s) = false \/
  deserialization_method s = VStr (py "json") \/
  deserialization_method s = VStr (py "pickle").
Proof.
  unfold __init__. intros H.
  do 10 (apply bindO_ok in H; destruct H as (? & _ & H)).
  cbv zeta in H.
  apply bindO_ok in H. destruct H as (method & _ & H).
  apply bindO_ok in H. destruct H as (invalid & Hinv & H).
  destruct invalid; [discriminate|].
  injection H as <-. simpl.
  destruct (truthy method) eqn:Ht; [|now left]. right.
  apply bindO_ok in Hinv. destruct Hinv as (known & Hk & Hn).
  injection Hn as Hn. apply negb_false_iff in Hn. subst known.
  destruct method; simpl in Hk; try discriminate.
  injection Hk as Hk.
  apply orb_true_iff in Hk. destruct Hk as [Hk|Hk].
  - apply pystr_eqb_eq in Hk. left. now subst.
  - apply orb_true_iff in Hk. destruct Hk as [Hk|Hk]; [|discriminate].
    apply pystr_eqb_eq in Hk. right. now subst.
Qed.

(** C7.  A configuration that has the entries the constructor requires and
    whose deserialization method is a non-empty string other than the
    supported ones makes [__init__] raise [ValueError]; and a sensor that
    [__init__] did construct has a method that is empty or is found in
    [DESERIALIZATION_FUNCTIONS], so the lookup in [_deserialize_body]
    cannot fail when a message is handled. *)
Theorem invalid_method_is_rejected_by_the_constructor
    config sc qc h qs0 name :
  getitem config (py "sensor_config") = Ok (VDict sc) ->
  dict_get sc (py "host") = Some h ->
  dict_get sc (py "rabbitmq_queue_sensor") = Some qc ->
  getitem qc (py "queues") = Ok qs0 ->
  getitem qc (py "deserialization_method") = Ok (VStr name) ->
  name <> [] -> name <> py "json" -> name <> py "pickle" ->
  __init__ config
  = Raise (Exc ValueError "Invalid deserialization method specified: %s"
               [VStr name])
  /\ forall config' s,
       __init__ config' = Ok s ->
       truthy (deserialization_method s) = false \/
       exists f, lookup_function (deserialization_method s) = Ok f.
Proof.
  intros Hsc Hh Hq Hqs Hm Hne Hj Hp. split.
  - rewrite (init_with_entries config sc qc h qs0 (VStr name) Hsc Hh Hq Hqs Hm).
    assert (Ht : truthy (VStr name) = true) by (destruct name; simpl; congruence).
    rewrite Ht. simpl.
    rewrite (pystr_eqb_neq _ _ (not_eq_sym Hj)).
    rewrite (pystr_eqb_neq _ _ (not_eq_sym Hp)).
    reflexivity.
  - intros config' s Hs.
    destruct (init_method_supported config' s Hs) as [H|[H|H]].
    + now left.
    + right. rewrite H. eexists. reflexivity.
    + right. rewrite H. eexists. reflexivity.
Qed.

(** C8 (as amended).  The [deserialization_method] entry has to be there,
    but its value may be empty ([None], the empty string).  Then
    [__init__] constructs the sensor, and the callback forwards every body
    that is valid UTF-8 as its text, with no deserializer applied. *)
Theorem empty_method_means_identity config sc qc h qs0 method :
  getitem config (py "sensor_config") = Ok (VDict sc) ->
  dict_get sc (py "host") = Some h ->
  dict_get sc (py "rabbitmq_queue_sensor") = Some qc ->
  getitem qc (py "queues") = Ok qs0 ->
  getitem qc (py "deserialization_method") = Ok method ->
  truthy method = false ->
  exists s,
    __init__ config = Ok s /\ deserialization_method s = method /\
    forall w ch m p body q c text,
      deserialization_method (self w) = deserialization_method s ->
      channel (self w) = Some c ->
      utf8_decode body = Some text ->
      _dispatch_trigger ch m p body q w =
      (dispatch_outcome q text,
       World (self w)
             (trace w ++ forwarding_events q (VBytes body) text (delivery_tag m))
             (consumers w)).
Proof.
  intros Hsc Hh Hq Hqs Hm Ht.
  rewrite (init_with_entries config sc qc h qs0 method Hsc Hh Hq Hqs Hm).
  rewrite Ht. cbn [bindO]. eexists. split; [reflexivity|]. split; [reflexivity|].
  cbn [deserialization_method].
  intros w ch m p body q c text Hw Hc Hu.
  apply dispatch_trigger_reached with (c := c).
  - exact Hc.
  - rewrite deserialize_body_identity; [reflexivity|]. now rewrite Hw.
  - simpl. now rewrite Hu.
Qed.

(** C10.  A configuration whose [queues] entry is the string [name] and
    the same configuration with the list [[name]] there give the same
    result of [__init__]: the same exception or the same sensor object,
    whose queues are the one-element list; and [setup] run on the two
    sensors does the same and registers the same callbacks. *)
Theorem single_queue_name_is_a_singleton_list top sc qc name :
  __init__ (config_with_queues top sc qc (VStr name))
  = __init__ (config_with_queues top sc qc (VList [VStr name]))
  /\ (forall s,
       __init__ (config_with_queues top sc qc (VStr name)) = Ok s ->
       queues s = [VStr name])
  /\ (forall s1 s2,
       __init__ (config_with_queues top sc qc (VStr name)) = Ok s1 ->
       __init__ (config_with_queues top sc qc (VList [VStr name])) = Ok s2 ->
       setup (fresh s1) = setup (fresh s2)).
Proof.
  cut (__init__ (config_with_queues top sc qc (VStr name))
       = __init__ (config_with_queues top sc qc (VList [VStr name]))
       /\ forall s,
            __init__ (config_with_queues top sc qc (VStr name)) = Ok s ->
            queues s = [VStr name]).
  { intros [Heq Hq]. split; [exact Heq|]. split; [exact Hq|].
    intros s1 s2 H1 H2. rewrite Heq in H1. congruence. }
  assert (Hinit : forall qs0,
    __init__ (config_with_queues top sc qc qs0) =
    (h <~ getitem (VDict (dict_set sc (py "rabbitmq_queue_sensor")
                            (VDict (dict_set qc (py "queues") qs0))))
                  (py "host") ;;
     method <~ getitem (VDict (dict_set qc (py "queues") qs0))
                       (py "deserialization_method") ;;
     invalid <~ (if truthy method
                 then (known <~ in_keys method ;; Ok (negb known))
                 else Ok false) ;;
     if invalid : bool
     then Raise (Exc ValueError "Invalid deserialization method specified: %s"
                     [method])
     else Ok (Sensor h
                (entry (dict_set sc (py "rabbitmq_queue_sensor")
                          (VDict (dict_set qc (py "queues") qs0)))
                       "port" (VInt 5672))
                (entry (dict_set sc (py "rabbitmq_queue_sensor")
                          (VDict (dict_set qc (py "queues") qs0)))
                       "username" VNone)
                (entry (dict_set sc (py "rabbitmq_queue_sensor")
                          (VDict (dict_set qc (py "queues") qs0)))
                       "password" VNone)
                (entry (dict_set sc (py "rabbitmq_queue_sensor")
                          (VDict (dict_set qc (py "queues") qs0)))
                       "vhost" VNone)
                (entry (dict_set sc (py "rabbitmq_queue_sensor")
                          (VDict (dict_set qc (py "queues") qs0)))
                       "socket_timeout" (VInt 60))
                (entry (dict_set sc (py "rabbitmq_queue_sensor")
                          (VDict (dict_set qc (py "queues") qs0)))
                       "blocked_connection_timeout" (VInt 60))
                (entry (dict_set sc (py "rabbitmq_queue_sensor")
                          (VDict (dict_set qc (py "queues") qs0)))
                       "heartbeat" (VInt 600))
                (match qs0 with VList l => l | _ => [qs0] end)
                method None None))).
  { intros qs0. unfold __init__, sensor_config, config_with_queues, entry.
    unfold getitem. rewrite dict_get_set_same. cbn [bindO].
    rewrite !get_default_dict. cbn [bindO].
    destruct (dict_get (dict_set sc (py "rabbitmq_queue_sensor")
                (VDict (dict_set qc (py "queues") qs0))) (py "host"))
      as [h|]; [|reflexivity].
    cbn [bindO]. rewrite dict_get_set_same. cbn [bindO].
    rewrite dict_get_set_same. cbn [bindO].
    reflexivity. }
  assert (Hother : forall qs0 k,
    k <> py "rabbitmq_queue_sensor" ->
    dict_get (dict_set sc (py "rabbitmq_queue_sensor")
                (VDict (dict_set qc (py "queues") qs0))) k
    = dict_get sc k).
  { intros qs0 k Hk. apply dict_get_set_other. congruence. }
  assert (Hmethod : forall qs0,
    dict_get (dict_set qc (py "queues") qs0) (py "deserialization_method")
    = dict_get qc (py "deserialization_method")).
  { intros qs0. apply dict_get_set_other. discriminate. }
  rewrite !Hinit. unfold entry. cbn [getitem].
  rewrite !Hother by discriminate. rewrite !Hmethod.
  split.
  - reflexivity.
  - intros s H.
    destruct (dict_get sc (py "host")); [|discriminate]. cbn [bindO] in H.
    destruct (dict_get qc (py "deserialization_method")); [|discriminate].
    cbn [bindO] in H.
    apply bindO_ok in H. destruct H as (invalid & _ & H).
    destruct invalid; [discriminate|]. injection H as <-. reflexivity.
Qed.

End Constructor.

(* ================================================================= *)
(** ** Setup and the subscriptions *)

Section SetupProperties.

Context {rt : Runtime}.

Lemma nth_error_callbacks (qs : list pyval) i q cb :
  nth_error (map (fun q => (q, Callback q)) qs) i = Some (q, cb) ->
  cb = Callback q.
Proof.
  revert i. induction qs as [|q0 qs IH]; intros [|i] H; simpl in H;
    try discriminate.
  - now injection H as <- <-.
  - eauto.
Qed.

Lemma connect_count_connecting s : connect_count (connecting_events s) = 1.
Proof.
  unfold connect_count, connecting_events.
  rewrite filter_app, length_app. simpl.
  induction (connection_params s) as [|iv l IH]; simpl; auto.
Qed.

(** C5.  After a [setup] that returns, the consumers registered on the
    channel are those of the configured queues, one per queue and in
    order; and when a message is delivered to the consumer of queue [q],
    every event its callback dispatches is a [rabbitmq.new_message] whose
    [queue] field is [q]: each callback holds the queue of its own
    iteration of the loop. *)
Theorem forwarded_queue_is_the_delivery_queue w0 w1 :
  setup w0 = (Ok tt, w1) ->
  consumers w0 = [] ->
  map fst (consumers w1) = queues (self w0) /\
  forall d q cb trig payload,
    nth_error (consumers w1) (consumer_index d) = Some (q, cb) ->
    In (Dispatch trig payload) (new_events w1 (snd (deliver d w1))) ->
    trig = new_message /\ getitem payload (py "queue") = Ok q.
Proof.
  intros Hsetup Hnone.
  destruct (setup_returns w0 w1 Hsetup) as (Hcons & Hch & _ & _).
  rewrite Hnone in Hcons. simpl in Hcons. split.
  - rewrite Hcons, map_map. simpl. apply map_id.
  - intros d q cb trig payload Hnth Hin.
    unfold deliver in Hin. rewrite Hnth in Hin.
    rewrite Hcons in Hnth. apply nth_error_callbacks in Hnth. subst cb.
    unfold call_callback in Hin. simpl in Hin.
    destruct (dispatch_trigger_events _ _ _ _ _ _ _ _ _ Hch Hin)
      as (v & text & -> & -> & _).
    split; reflexivity.
Qed.

(** C6.  When the connection attempt of [setup] raises on a sensor that
    has no connection, the exception is logged by the [except] clause and
    does not leave [setup]; execution goes on to the next statement with
    [self.conn] still [None] (where [self.conn.channel()] raises
    [AttributeError]); the connection was attempted once. *)
Theorem connection_failure_is_logged_and_swallowed w e :
  conn (self w) = None ->
  BlockingConnection (connection_params (self w)) = Some e ->
  new_events w (snd (setup w))
  = connecting_events (self w)
    ++ [connect_failure_log e; Log DEBUG "Opening channel on RabbitMQ" []]
  /\ connect_count (new_events w (snd (setup w))) = 1
  /\ conn (self (snd (setup w))) = None
  /\ fst (setup w) = Raise no_channel_attribute.
Proof.
  intros Hc Hb. rewrite (setup_refused w e Hc Hb). simpl.
  rewrite new_events_app. repeat split; auto.
  unfold connect_count. rewrite filter_app, length_app.
  fold (connect_count (connecting_events (self w))).
  rewrite connect_count_connecting. reflexivity.
Qed.

End SetupProperties.

(* ================================================================= *)
(** ** Runs on concrete messages *)

Section Runs.

Import CPython.

(** C1 does not hold as stated: the sensor consumes from ["orders"] with
    no deserialization method, the body is the single byte [0xff].
    [decode] raises before the [try] statement is entered, and the trace of
    the callback has no acknowledgment. *)
Lemma undecodable_body_is_not_acknowledged :
  construct_setup_deliver (rt := healthy)
    (sample_config (VList [VStr (py "orders")]) VNone)
    (first_delivery [xff])
  = Some (Raise (Exc UnicodeDecodeError "'utf-8' codec can't decode byte"
                     [VBytes [xff]]),
          [ Log DEBUG "Received message for queue %s with body %s"
                [LVal (VStr (py "orders")); LVal (VBytes [xff])] ]).
Proof. vm_compute. reflexivity. Qed.

(** C2, at the failing input: queue ["jobs"], method [json], body
    [b'{"id":1}'].  [json.loads] returns a dictionary, [decode] is called on
    it and raises [AttributeError]; nothing is dispatched and nothing is
    acknowledged. *)
Theorem json_object_body_is_not_forwarded :
  construct_setup_deliver (rt := healthy)
    (sample_config (VList [VStr (py "jobs")]) (VStr (py "json")))
    (first_delivery body_id1)
  = Some (Raise (Exc AttributeError "object has no attribute 'decode'"
                     [VDict [(py "id", VInt 1)]]),
          [ Log DEBUG "Received message for queue %s with body %s"
                [LVal (VStr (py "jobs")); LVal (VDict [(py "id", VInt 1)])] ]).
Proof. vm_compute. reflexivity. Qed.

(** C3 does not hold as stated: queue ["jobs"], method [json], body the
    single byte [0xff].  The failure of [json.loads] is swallowed, the one
    of [decode] on the raw bytes is not: the callback raises
    [UnicodeDecodeError] and forwards nothing. *)
Lemma decoding_failure_is_propagated :
  construct_setup_deliver (rt := healthy)
    (sample_config (VList [VStr (py "jobs")]) (VStr (py "json")))
    (first_delivery [xff])
  = Some (Raise (Exc UnicodeDecodeError "'utf-8' codec can't decode byte"
                     [VBytes [xff]]),
          [ Log DEBUG "Received message for queue %s with body %s"
                [LVal (VStr (py "jobs")); LVal (VBytes [xff])] ]).
Proof. vm_compute. reflexivity. Qed.

(** C8 does not hold as stated: without a [deserialization_method]
    entry the subscript in [__init__] raises [KeyError]. *)
Lemma missing_method_entry_is_a_key_error :
  __init__ (rt := healthy)
    (config_without_method (VList [VStr (py "orders")]))
  = Raise (Exc KeyError "%r" [VStr (py "deserialization_method")]).
Proof. vm_compute. reflexivity. Qed.

(** The scenario of C9 from the configuration on. *)
Example orders_hello_run :
  construct_setup_deliver (rt := healthy)
    (sample_config (VStr (py "orders")) VNone)
    (first_delivery (bytes_of "hello"))
  = Some (Ok tt,
          forwarding_events (VStr (py "orders")) (VBytes (bytes_of "hello"))
                            (py "hello") 1).
Proof. vm_compute. reflexivity. Qed.

(** A pickled [bytes] object is the one deserialized value that is
    forwarded. *)
Example pickled_bytes_run :
  construct_setup_deliver (rt := healthy)
    (sample_config (VStr (py "jobs")) (VStr (py "pickle")))
    (first_delivery ([x80; x03; x43; x02; x68; x69; x71; x00; x2e]))
  = Some (Ok tt,
          forwarding_events (VStr (py "jobs")) (VBytes (bytes_of "hi"))
                            (py "hi") 1).
Proof. vm_compute. reflexivity. Qed.

(** Queues ["a"] and ["b"], deliveries from a, b, a: three events, each
    with the queue of its delivery, each followed by its acknowledgment. *)
Example interleaved_deliveries_run :
  filter (fun ev => is_dispatch ev || is_ack ev)
    (trace (snd (run (rt := healthy)
                   [ Delivery 0 (Deliver 1) BasicProperties (bytes_of "x");
                     Delivery 1 (Deliver 2) BasicProperties (bytes_of "y");
                     Delivery 0 (Deliver 3) BasicProperties (bytes_of "z") ]
                   (listening [VStr (py "a"); VStr (py "b")] VNone))))
  = [ Dispatch new_message (forwarded_event (VStr (py "a")) (py "x"));
      BasicAck 1;
      Dispatch new_message (forwarded_event (VStr (py "b")) (py "y"));
      BasicAck 2;
      Dispatch new_message (forwarded_event (VStr (py "a")) (py "z"));
      BasicAck 3 ].
Proof. vm_compute. reflexivity. Qed.

(** [__init__] and [setup] on [sample_config] lead to [listening], the
    trace of [setup] apart. *)
Example sample_config_setup qs method :
  setup (rt := healthy) (fresh (constructed qs method))
  = (Ok tt,
     World (connected_sensor qs method)
           (connecting_events (constructed qs method)
            ++ channel_events (constructed qs method))
           (consumers (listening qs method))).
Proof. now rewrite setup_connected. Qed.

End Runs.

(* ================================================================= *)
(** ** The theorems at concrete inputs *)

Section Instances.

Import CPython.

(** Exactly one acknowledgment, with a host whose dispatch raises. *)
Lemma one_ack_once_dispatch_is_reached_at_hello :
  channel (self (listening [VStr (py "orders")] VNone))
  = Some BlockingChannel_obj
  /\ fst (_deserialize_body (rt := failing_host) (bytes_of "hello")
            (listening [VStr (py "orders")] VNone))
     = Ok (VBytes (bytes_of "hello"))
  /\ decode_utf8 (VBytes (bytes_of "hello")) = Ok (py "hello")
  /\ acks (new_events (listening [VStr (py "orders")] VNone)
             (snd (_dispatch_trigger (rt := failing_host) BlockingChannel_obj
                     (Deliver 7) BasicProperties (bytes_of "hello")
                     (VStr (py "orders"))
                     (listening [VStr (py "orders")] VNone))))
     = [BasicAck 7].
Proof.
  split; [reflexivity|]. split; [reflexivity|]. split; [reflexivity|].
  exact (one_ack_once_dispatch_is_reached (rt := failing_host)
           BlockingChannel_obj (Deliver 7) BasicProperties
           (bytes_of "hello") (VStr (py "orders"))
           (listening [VStr (py "orders")] VNone)
           BlockingChannel_obj (VBytes (bytes_of "hello")) (py "hello")
           eq_refl eq_refl eq_refl).
Defined.

(** The dispatch raises and the acknowledgment is issued all the same. *)
Lemma dispatch_error_propagates_after_ack_at_hello :
  channel (self (listening [VStr (py "orders")] VNone))
  = Some BlockingChannel_obj
  /\ In (Dispatch new_message (forwarded_event (VStr (py "orders")) (py "hello")))
        (new_events (listening [VStr (py "orders")] VNone)
           (snd (_dispatch_trigger (rt := failing_host) BlockingChannel_obj
                   (Deliver 7) BasicProperties (bytes_of "hello")
                   (VStr (py "orders"))
                   (listening [VStr (py "orders")] VNone))))
  /\ sensor_service_dispatch (Runtime := failing_host) new_message
       (forwarded_event (VStr (py "orders")) (py "hello"))
     = Some host_failure
  /\ fst (_dispatch_trigger (rt := failing_host) BlockingChannel_obj
            (Deliver 7) BasicProperties (bytes_of "hello")
            (VStr (py "orders")) (listening [VStr (py "orders")] VNone))
     = Raise host_failure
  /\ exists before,
       new_events (listening [VStr (py "orders")] VNone)
         (snd (_dispatch_trigger (rt := failing_host) BlockingChannel_obj
                 (Deliver 7) BasicProperties (bytes_of "hello")
                 (VStr (py "orders"))
                 (listening [VStr (py "orders")] VNone)))
       = before ++ [ Dispatch new_message
                       (forwarded_event (VStr (py "orders")) (py "hello"));
                     BasicAck 7 ].
Proof.
  assert (Hc : channel (self (listening [VStr (py "orders")] VNone))
               = Some BlockingChannel_obj) by reflexivity.
  assert (Hin : In (Dispatch new_message
                      (forwarded_event (VStr (py "orders")) (py "hello")))
        (new_events (listening [VStr (py "orders")] VNone)
           (snd (_dispatch_trigger (rt := failing_host) BlockingChannel_obj
                   (Deliver 7) BasicProperties (bytes_of "hello")
                   (VStr (py "orders"))
                   (listening [VStr (py "orders")] VNone)))))
    by (vm_compute; right; left; reflexivity).
  assert (He : sensor_service_dispatch (Runtime := failing_host) new_message
                 (forwarded_event (VStr (py "orders")) (py "hello"))
               = Some host_failure) by reflexivity.
  split; [exact Hc|]. split; [exact Hin|]. split; [exact He|].
  exact (dispatch_error_propagates_after_ack (rt := failing_host)
           BlockingChannel_obj (Deliver 7) BasicProperties (bytes_of "hello")
           (VStr (py "orders")) (listening [VStr (py "orders")] VNone)
           BlockingChannel_obj new_message
           (forwarded_event (VStr (py "orders")) (py "hello"))
           host_failure Hc Hin He).
Defined.

(** A malformed JSON text that is valid UTF-8 is forwarded as it came. *)
Lemma deserialization_failure_falls_back_at_malformed_json :
  truthy (deserialization_method
            (self (listening [VStr (py "jobs")] (VStr (py "json"))))) = true
  /\ lookup_function (rt := healthy)
       (deserialization_method
          (self (listening [VStr (py "jobs")] (VStr (py "json")))))
     = Ok CPython.json_loads
  /\ CPython.json_loads (bytes_of "{bad") = Raise json_error
  /\ is_Exception (exc_type json_error) = true
  /\ _deserialize_body (rt := healthy) (bytes_of "{bad")
       (listening [VStr (py "jobs")] (VStr (py "json")))
     = (Ok (VBytes (bytes_of "{bad")),
        listening [VStr (py "jobs")] (VStr (py "json")))
  /\ _dispatch_trigger (rt := healthy) BlockingChannel_obj (Deliver 1)
       BasicProperties (bytes_of "{bad") (VStr (py "jobs"))
       (listening [VStr (py "jobs")] (VStr (py "json")))
     = (Ok tt,
        World (connected_sensor [VStr (py "jobs")] (VStr (py "json")))
              (forwarding_events (VStr (py "jobs")) (VBytes (bytes_of "{bad"))
                                 (py "{bad") 1)
              (consumers (listening [VStr (py "jobs")] (VStr (py "json"))))).
Proof.
  assert (Hm : truthy (deserialization_method
                 (self (listening [VStr (py "jobs")] (VStr (py "json")))))
               = true) by reflexivity.
  assert (Hf : lookup_function (rt := healthy)
                 (deserialization_method
                    (self (listening [VStr (py "jobs")] (VStr (py "json")))))
               = Ok CPython.json_loads) by reflexivity.
  assert (Hr : CPython.json_loads (bytes_of "{bad") = Raise json_error)
    by reflexivity.
  assert (He : is_Exception (exc_type json_error) = true) by reflexivity.
  destruct (deserialization_failure_falls_back_to_raw_body (rt := healthy)
              BlockingChannel_obj (Deliver 1) BasicProperties
              (bytes_of "{bad") (VStr (py "jobs"))
              (listening [VStr (py "jobs")] (VStr (py "json")))
              CPython.json_loads json_error Hm Hf Hr He) as [Hd Hrun].
  repeat (split; [assumption|]).
  exact (Hrun BlockingChannel_obj (py "{bad") eq_refl eq_refl).
Defined.

(** The scenario of queue ["orders"] on the world a successful [setup]
    leaves. *)
Lemma orders_hello_is_forwarded_when_listening :
  truthy (deserialization_method (self (listening [VStr (py "orders")] VNone)))
  = false
  /\ channel (self (listening [VStr (py "orders")] VNone))
     = Some BlockingChannel_obj
  /\ new_events (listening [VStr (py "orders")] VNone)
       (snd (_dispatch_trigger (rt := healthy) BlockingChannel_obj (Deliver 1)
               BasicProperties (bytes_of "hello") (VStr (py "orders"))
               (listening [VStr (py "orders")] VNone)))
     = [ Log DEBUG "Received message for queue %s with body %s"
             [LVal (VStr (py "orders")); LVal (VBytes (bytes_of "hello"))];
         Dispatch (py "rabbitmq.new_message")
                  (VDict [ (py "queue", VStr (py "orders"));
                           (py "body", VStr (py "hello")) ]);
         BasicAck 1 ].
Proof.
  split; [reflexivity|]. split; [reflexivity|].
  exact (orders_hello_is_forwarded (rt := healthy) BlockingChannel_obj
           (Deliver 1) BasicProperties
           (listening [VStr (py "orders")] VNone) BlockingChannel_obj
           eq_refl eq_refl).
Defined.

(** Queues ["a"] and ["b"], a message delivered to the consumer of
    ["b"]. *)
Lemma forwarded_queue_is_the_delivery_queue_at_b :
  setup (rt := healthy) (fresh (constructed [VStr (py "a"); VStr (py "b")] VNone))
  = (Ok tt,
     snd (setup (rt := healthy)
            (fresh (constructed [VStr (py "a"); VStr (py "b")] VNone))))
  /\ consumers (fresh (constructed [VStr (py "a"); VStr (py "b")] VNone)) = []
  /\ nth_error
       (consumers
          (snd (setup (rt := healthy)
                  (fresh (constructed [VStr (py "a"); VStr (py "b")] VNone)))))
       (consumer_index
          (Delivery 1 (Deliver 1) BasicProperties (bytes_of "hi")))
     = Some (VStr (py "b"), Callback (VStr (py "b")))
  /\ In (Dispatch new_message (forwarded_event (VStr (py "b")) (py "hi")))
        (new_events
           (snd (setup (rt := healthy)
                   (fresh (constructed [VStr (py "a"); VStr (py "b")] VNone))))
           (snd (deliver (rt := healthy)
                   (Delivery 1 (Deliver 1) BasicProperties (bytes_of "hi"))
                   (snd (setup (rt := healthy)
                           (fresh (constructed [VStr (py "a"); VStr (py "b")]
                                               VNone)))))))
  /\ map fst
       (consumers
          (snd (setup (rt := healthy)
                  (fresh (constructed [VStr (py "a"); VStr (py "b")] VNone)))))
     = [VStr (py "a"); VStr (py "b")]
  /\ getitem (forwarded_event (VStr (py "b")) (py "hi")) (py "queue")
     = Ok (VStr (py "b")).
Proof.
  assert (Hs : setup (rt := healthy)
                 (fresh (constructed [VStr (py "a"); VStr (py "b")] VNone))
               = (Ok tt,
                  snd (setup (rt := healthy)
                         (fresh (constructed [VStr (py "a"); VStr (py "b")]
                                             VNone)))))
    by (vm_compute; reflexivity).
  assert (Hn : consumers
                 (fresh (constructed [VStr (py "a"); VStr (py "b")] VNone))
               = []) by reflexivity.
  destruct (forwarded_queue_is_the_delivery_queue (rt := healthy)
              (fresh (constructed [VStr (py "a"); VStr (py "b")] VNone))
              _ Hs Hn) as [Hmap Hq].
  assert (Hnth : nth_error
       (consumers
          (snd (setup (rt := healthy)
                  (fresh (constructed [VStr (py "a"); VStr (py "b")] VNone)))))
       (consumer_index
          (Delivery 1 (Deliver 1) BasicProperties (bytes_of "hi")))
     = Some (VStr (py "b"), Callback (VStr (py "b"))))
    by (vm_compute; reflexivity).
  assert (Hin : In (Dispatch new_message
                      (forwarded_event (VStr (py "b")) (py "hi")))
        (new_events
           (snd (setup (rt := healthy)
                   (fresh (constructed [VStr (py "a"); VStr (py "b")] VNone))))
           (snd (deliver (rt := healthy)
                   (Delivery 1 (Deliver 1) BasicProperties (bytes_of "hi"))
                   (snd (setup (rt := healthy)
                           (fresh (constructed [VStr (py "a"); VStr (py "b")]
                                               VNone))))))))
    by (vm_compute; right; left; reflexivity).
  split; [exact Hs|]. split; [exact Hn|]. split; [exact Hnth|].
  split; [exact Hin|]. split; [exact Hmap|].
  exact (proj2 (Hq _ _ _ _ _ Hnth Hin)).
Defined.

(** A refused connection on a freshly constructed sensor. *)
Lemma connection_failure_is_logged_and_swallowed_when_refused :
  conn (self (fresh (constructed [VStr (py "orders")] VNone))) = None
  /\ BlockingConnection (Runtime := unreachable_broker)
       (connection_params (self (fresh (constructed [VStr (py "orders")] VNone))))
     = Some connection_refused
  /\ new_events (fresh (constructed [VStr (py "orders")] VNone))
       (snd (setup (rt := unreachable_broker)
               (fresh (constructed [VStr (py "orders")] VNone))))
     = connecting_events (constructed [VStr (py "orders")] VNone)
       ++ [ connect_failure_log connection_refused;
            Log DEBUG "Opening channel on RabbitMQ" [] ]
  /\ connect_count
       (new_events (fresh (constructed [VStr (py "orders")] VNone))
          (snd (setup (rt := unreachable_broker)
                  (fresh (constructed [VStr (py "orders")] VNone))))) = 1
  /\ conn (self (snd (setup (rt := unreachable_broker)
                        (fresh (constructed [VStr (py "orders")] VNone)))))
     = None
  /\ fst (setup (rt := unreachable_broker)
            (fresh (constructed [VStr (py "orders")] VNone)))
     = Raise no_channel_attribute.
Proof.
  split; [vm_compute; reflexivity|]. split; [vm_compute; reflexivity|].
  exact (connection_failure_is_logged_and_swallowed (rt := unreachable_broker)
           (fresh (constructed [VStr (py "orders")] VNone))
           connection_refused eq_refl eq_refl).
Defined.

(** The method ["yaml"] is rejected. *)
Lemma invalid_method_is_rejected_at_yaml :
  getitem (sample_config (VList [VStr (py "orders")]) (VStr (py "yaml")))
          (py "sensor_config")
  = Ok (VDict (sample_sensor_entries (VList [VStr (py "orders")])
                                     (VStr (py "yaml"))))
  /\ dict_get (sample_sensor_entries (VList [VStr (py "orders")])
                                     (VStr (py "yaml"))) (py "host")
     = Some (VStr (py "localhost"))
  /\ dict_get (sample_sensor_entries (VList [VStr (py "orders")])
                                     (VStr (py "yaml")))
              (py "rabbitmq_queue_sensor")
     = Some (VDict (sample_queue_entries (VList [VStr (py "orders")])
                                         (VStr (py "yaml"))))
  /\ getitem (VDict (sample_queue_entries (VList [VStr (py "orders")])
                                          (VStr (py "yaml")))) (py "queues")
     = Ok (VList [VStr (py "orders")])
  /\ getitem (VDict (sample_queue_entries (VList [VStr (py "orders")])
                                          (VStr (py "yaml"))))
             (py "deserialization_method")
     = Ok (VStr (py "yaml"))
  /\ py "yaml" <> [] /\ py "yaml" <> py "json" /\ py "yaml" <> py "pickle"
  /\ __init__ (rt := healthy)
       (sample_config (VList [VStr (py "orders")]) (VStr (py "yaml")))
     = Raise (Exc ValueError "Invalid deserialization method specified: %s"
                  [VStr (py "yaml")]).
Proof.
  assert (H1 : py "yaml" <> []) by discriminate.
  assert (H2 : py "yaml" <> py "json") by discriminate.
  assert (H3 : py "yaml" <> py "pickle") by discriminate.
  split; [reflexivity|]. split; [reflexivity|]. split; [reflexivity|].
  split; [reflexivity|]. split; [reflexivity|].
  split; [exact H1|]. split; [exact H2|]. split; [exact H3|].
  exact (proj1 (invalid_method_is_rejected_by_the_constructor (rt := healthy)
           (sample_config (VList [VStr (py "orders")]) (VStr (py "yaml")))
           (sample_sensor_entries (VList [VStr (py "orders")]) (VStr (py "yaml")))
           (VDict (sample_queue_entries (VList [VStr (py "orders")])
                                        (VStr (py "yaml"))))
           (VStr (py "localhost")) (VList [VStr (py "orders")]) (py "yaml")
           eq_refl eq_refl eq_refl eq_refl eq_refl H1 H2 H3)).
Defined.

(** The method [None]: the sensor is constructed. *)
Lemma empty_method_means_identity_at_none :
  getitem (sample_config (VList [VStr (py "orders")]) VNone)
          (py "sensor_config")
  = Ok (VDict (sample_sensor_entries (VList [VStr (py "orders")]) VNone))
  /\ dict_get (sample_sensor_entries (VList [VStr (py "orders")]) VNone)
              (py "host")
     = Some (VStr (py "localhost"))
  /\ dict_get (sample_sensor_entries (VList [VStr (py "orders")]) VNone)
              (py "rabbitmq_queue_sensor")
     = Some (VDict (sample_queue_entries (VList [VStr (py "orders")]) VNone))
  /\ getitem (VDict (sample_queue_entries (VList [VStr (py "orders")]) VNone))
             (py "queues")
     = Ok (VList [VStr (py "orders")])
  /\ getitem (VDict (sample_queue_entries (VList [VStr (py "orders")]) VNone))
             (py "deserialization_method")
     = Ok VNone
  /\ truthy VNone = false
  /\ exists s,
       __init__ (rt := healthy)
         (sample_config (VList [VStr (py "orders")]) VNone) = Ok s
       /\ deserialization_method s = VNone.
Proof.
  split; [reflexivity|]. split; [reflexivity|]. split; [reflexivity|].
  split; [reflexivity|]. split; [reflexivity|]. split; [reflexivity|].
  destruct (empty_method_means_identity (rt := healthy)
              (sample_config (VList [VStr (py "orders")]) VNone)
              (sample_sensor_entries (VList [VStr (py "orders")]) VNone)
              (VDict (sample_queue_entries (VList [VStr (py "orders")]) VNone))
              (VStr (py "localhost")) (VList [VStr (py "orders")]) VNone
              eq_refl eq_refl eq_refl eq_refl eq_refl eq_refl)
    as (s & Hs & Hm & _).
  exists s. split; assumption.
Defined.

End Instances.

(* ================================================================= *)
(** ** More on the constructor *)

Section ConstructorMore.

Context {rt : Runtime}.

(** X1.  A sensor that [__init__] returns took its host from the [host]
    entry of [sensor_config] and each optional setting from its entry when
    there is one, and otherwise the default: port 5672, no user name, no
    password, no virtual host, 60 for the two timeouts and 600 for the
    heartbeat. *)
Theorem init_reads_settings_with_defaults config s :
  __init__ config = Ok s ->
  exists sc,
    getitem config (py "sensor_config") = Ok (VDict sc)
    /\ dict_get sc (py "host") = Some (host s)
    /\ port s = entry sc "port" (VInt 5672)
    /\ username s = entry sc "username" VNone
    /\ password s = entry sc "password" VNone
    /\ vhost s = entry sc "vhost" VNone
    /\ socket_timeout s = entry sc "socket_timeout" (VInt 60)
    /\ blocked_connection_timeout s
       = entry sc "blocked_connection_timeout" (VInt 60)
    /\ heartbeat s = entry sc "heartbeat" (VInt 600).
Proof.
  unfold __init__, sensor_config. intros H.
  destruct (getitem config (py "sensor_config")) as [x|e] eqn:Hsc;
    [|discriminate].
  cbn [bindO] in H.
  destruct x; try discriminate H.
  rewrite !get_default_dict in H. cbn [bindO getitem] in H.
  destruct (dict_get d (py "host")) as [h|] eqn:Hh; [|discriminate].
  cbn [bindO] in H.
  do 2 (apply bindO_ok in H; destruct H as (? & _ & H)).
  cbv zeta in H.
  apply bindO_ok in H. destruct H as (method & _ & H).
  apply bindO_ok in H. destruct H as (invalid & _ & H).
  destruct invalid; [discriminate|]. injection H as <-.
  exists d. simpl. unfold entry. repeat split; auto.
Qed.

(** X2.  Without a [sensor_config] entry, or without a [host] entry in
    it, [__init__] raises the exception of the failed subscript, whatever
    the rest of the configuration holds. *)
Theorem init_requires_host config :
  (forall e, getitem config (py "sensor_config") = Raise e ->
             __init__ config = Raise e)
  /\ (forall sc e, getitem config (py "sensor_config") = Ok sc ->
                   getitem sc (py "host") = Raise e ->
                   __init__ config = Raise e).
Proof.
  split.
  - intros e H. unfold __init__, sensor_config. rewrite H. reflexivity.
  - intros sc e Hsc Hh. unfold __init__, sensor_config. rewrite Hsc.
    cbn [bindO]. rewrite Hh. reflexivity.
Qed.

(** X3.  The [queues] and [deserialization_method] entries of
    [rabbitmq_queue_sensor] are read with a subscript, [queues] first and
    both before the method is checked: when one is missing, [__init__]
    raises the exception of that subscript, also when the method is not a
    supported one. *)
Theorem init_requires_queue_entries config sc qc h :
  getitem config (py "sensor_config") = Ok (VDict sc) ->
  dict_get sc (py "host") = Some h ->
  dict_get sc (py "rabbitmq_queue_sensor") = Some qc ->
  (forall e, getitem qc (py "queues") = Raise e -> __init__ config = Raise e)
  /\ (forall qs0 e, getitem qc (py "queues") = Ok qs0 ->
                    getitem qc (py "deserialization_method") = Raise e ->
                    __init__ config = Raise e).
Proof.
  intros Hsc Hh Hq.
  split.
  - intros e He. unfold __init__, sensor_config. rewrite Hsc.
    cbn [bindO]. rewrite !get_default_dict. cbn [bindO getitem].
    rewrite Hh, Hq. cbn [bindO]. rewrite He. reflexivity.
  - intros qs0 e Hqs He. unfold __init__, sensor_config. rewrite Hsc.
    cbn [bindO]. rewrite !get_default_dict. cbn [bindO getitem].
    rewrite Hh, Hq. cbn [bindO]. rewrite Hqs. cbn [bindO]. rewrite He.
    reflexivity.
Qed.

(** X4.  On a configuration that has the entries read by subscript,
    [__init__] returns a sensor exactly when the deserialization method is
    empty or is the string ["json"] or ["pickle"]; the sensor keeps the
    method as configured. *)
Theorem init_accepts_exactly_the_supported_methods
    config sc qc h qs0 method :
  getitem config (py "sensor_config") = Ok (VDict sc) ->
  dict_get sc (py "host") = Some h ->
  dict_get sc (py "rabbitmq_queue_sensor") = Some qc ->
  getitem qc (py "queues") = Ok qs0 ->
  getitem qc (py "deserialization_method") = Ok method ->
  ((exists s, __init__ config = Ok s) <->
   (truthy method = false \/ method = VStr (py "json")
    \/ method = VStr (py "pickle")))
  /\ (forall s, __init__ config = Ok s -> deserialization_method s = method).
Proof.
  intros Hsc Hh Hq Hqs Hm.
  pose proof (init_with_entries config sc qc h qs0 method Hsc Hh Hq Hqs Hm)
    as Hinit.
  assert (Hkeep : forall s, __init__ config = Ok s ->
                            deserialization_method s = method).
  { intros s Hs. rewrite Hinit in Hs.
    apply bindO_ok in Hs. destruct Hs as (invalid & _ & Hs).
    destruct invalid; [discriminate|]. now injection Hs as <-. }
  split; [|exact Hkeep]. split.
  - intros [s Hs]. rewrite <- (Hkeep s Hs).
    exact (init_method_supported config s Hs).
  - intros [Ht|[->| ->]]; rewrite Hinit.
    + rewrite Ht. cbn [bindO]. eauto.
    + eexists. vm_compute. reflexivity.
    + eexists. vm_compute. reflexivity.
Qed.

(** X5.  A method that is not empty and not a string is rejected as well:
    with [ValueError] when it is hashable (a number, [True]), with the
    [TypeError] of the membership test when it is a list or a
    dictionary. *)
Theorem init_rejects_non_string_methods config sc qc h qs0 method :
  getitem config (py "sensor_config") = Ok (VDict sc) ->
  dict_get sc (py "host") = Some h ->
  dict_get sc (py "rabbitmq_queue_sensor") = Some qc ->
  getitem qc (py "queues") = Ok qs0 ->
  getitem qc (py "deserialization_method") = Ok method ->
  truthy method = true ->
  (forall name, method <> VStr name) ->
  __init__ config = Raise (method_rejection method).
Proof.
  intros Hsc Hh Hq Hqs Hm Ht Hns.
  rewrite (init_with_entries config sc qc h qs0 method Hsc Hh Hq Hqs Hm).
  rewrite Ht. unfold method_rejection.
  destruct method; simpl; try reflexivity.
  exfalso. eapply Hns. reflexivity.
Qed.

(** X6.  The queues of a constructed sensor: a list entry is kept as it
    is, the empty list included; any other value becomes the single
    element of a list. *)
Theorem init_normalises_queues config sc qc h qs0 method s :
  getitem config (py "sensor_config") = Ok (VDict sc) ->
  dict_get sc (py "host") = Some h ->
  dict_get sc (py "rabbitmq_queue_sensor") = Some qc ->
  getitem qc (py "queues") = Ok qs0 ->
  getitem qc (py "deserialization_method") = Ok method ->
  __init__ config = Ok s ->
  (forall l, qs0 = VList l -> queues s = l)
  /\ ((forall l, qs0 <> VList l) -> queues s = [qs0]).
Proof.
  intros Hsc Hh Hq Hqs Hm Hs.
  rewrite (init_with_entries config sc qc h qs0 method Hsc Hh Hq Hqs Hm) in Hs.
  apply bindO_ok in Hs. destruct Hs as (invalid & _ & Hs).
  destruct invalid; [discriminate|]. injection Hs as <-. simpl. split.
  - intros l ->. reflexivity.
  - intros Hn. destruct qs0; try reflexivity. exfalso. eapply Hn. reflexivity.
Qed.

(** X7.  A sensor that was constructed and not set up has no connection
    and no channel: [run] logs that it starts, then raises
    [AttributeError] without consuming anything, and [cleanup] does
    nothing. *)
Theorem constructed_sensor_is_not_connected config s ds :
  __init__ config = Ok s ->
  conn s = None /\ channel s = None
  /\ run ds (fresh s)
     = (Raise no_start_consuming_attribute, World s [starting_log s] [])
  /\ cleanup (fresh s) = (Ok tt, fresh s).
Proof.
  unfold __init__. intros H.
  do 10 (apply bindO_ok in H; destruct H as (? & _ & H)).
  cbv zeta in H.
  do 2 (apply bindO_ok in H; destruct H as (? & _ & H)).
  match type of H with (if ?b then _ else _) = _ => destruct b end;
    [discriminate|].
  injection H as <-. repeat split.
Qed.

End ConstructorMore.

(* ================================================================= *)
(** ** More on setup and cleanup *)

Section SetupMore.

Context {rt : Runtime}.

Lemma declared_subscriptions qs :
  declared (flat_map subscription_events qs) = map (fun q => (q, true)) qs.
Proof. induction qs as [|q qs IH]; simpl; [|rewrite IH]; reflexivity. Qed.

Lemma consumed_subscriptions qs :
  consumed (flat_map subscription_events qs)
  = map (fun q => (q, Callback q)) qs.
Proof. induction qs as [|q qs IH]; simpl; [|rewrite IH]; reflexivity. Qed.

Lemma qos_subscriptions qs : qos_settings (flat_map subscription_events qs) = [].
Proof. induction qs as [|q qs IH]; simpl; auto. Qed.

Lemma dispatches_subscriptions qs :
  dispatches (flat_map subscription_events qs) = []
  /\ acks (flat_map subscription_events qs) = [].
Proof. induction qs as [|q qs IH]; simpl; auto. Qed.

Lemma connecting_events_quiet s :
  declared (connecting_events s) = []
  /\ consumed (connecting_events s) = []
  /\ qos_settings (connecting_events s) = []
  /\ dispatches (connecting_events s) = []
  /\ acks (connecting_events s) = [].
Proof.
  unfold connecting_events, declared, consumed, qos_settings, dispatches, acks.
  rewrite !flat_map_app, !filter_app. simpl.
  induction (connection_params s) as [|iv l IH]; simpl; auto.
Qed.

(** X8.  The parameters of the connection: host, port and the three
    timings are always passed; credentials are passed exactly when both the
    user name and the password are non-empty, and the virtual host exactly
    when it is non-empty. *)
Theorem connection_params_entries s :
  dict_get (connection_params s) (py "host") = Some (host s)
  /\ dict_get (connection_params s) (py "port") = Some (port s)
  /\ dict_get (connection_params s) (py "socket_timeout")
     = Some (socket_timeout s)
  /\ dict_get (connection_params s) (py "blocked_connection_timeout")
     = Some (blocked_connection_timeout s)
  /\ dict_get (connection_params s) (py "heartbeat") = Some (heartbeat s)
  /\ dict_get (connection_params s) (py "credentials")
     = (if truthy (username s) && truthy (password s)
        then Some (VPlainCredentials (username s) (password s))
        else None)
  /\ dict_get (connection_params s) (py "virtual_host")
     = (if truthy (vhost s) then Some (vhost s) else None).
Proof.
  unfold connection_params.
  destruct (truthy (username s) && truthy (password s));
    destruct (truthy (vhost s)); vm_compute; repeat split.
Qed.

(** X9.  When the broker accepts the connection, [setup] connects once,
    opens the channel, sets the prefetch count to 1 before it declares or
    consumes anything, then declares every configured queue as durable and
    consumes from it, in the order of the configuration, with a callback
    holding that queue; it dispatches and acknowledges nothing. *)
Theorem setup_subscribes_every_queue w :
  BlockingConnection (connection_params (self w)) = None ->
  fst (setup w) = Ok tt
  /\ connect_count (new_events w (snd (setup w))) = 1
  /\ declared (new_events w (snd (setup w)))
     = map (fun q => (q, true)) (queues (self w))
  /\ consumed (new_events w (snd (setup w)))
     = map (fun q => (q, Callback q)) (queues (self w))
  /\ (exists before after,
        new_events w (snd (setup w)) = before ++ BasicQos 1 :: after
        /\ declared before = [] /\ consumed before = []
        /\ qos_settings before = [] /\ qos_settings after = [])
  /\ dispatches (new_events w (snd (setup w))) = []
  /\ acks (new_events w (snd (setup w))) = [].
Proof.
  intros Hok. rewrite (setup_connected w Hok). simpl.
  rewrite new_events_app.
  destruct (connecting_events_quiet (self w)) as (Hd & Hc & Hq & Hx & Ha).
  destruct (dispatches_subscriptions (queues (self w))) as [Hsd Hsa].
  split; [reflexivity|]. split.
  { unfold connect_count. rewrite filter_app, length_app.
    fold (connect_count (connecting_events (self w))).
    rewrite connect_count_connecting. unfold channel_events.
    rewrite filter_app, length_app. simpl.
    induction (queues (self w)) as [|q qs IH]; simpl; auto. }
  split.
  { unfold declared in *. rewrite flat_map_app, Hd. unfold channel_events.
    rewrite flat_map_app. simpl.
    apply (declared_subscriptions (queues (self w))). }
  split.
  { unfold consumed in *. rewrite flat_map_app, Hc. unfold channel_events.
    rewrite flat_map_app. simpl.
    apply (consumed_subscriptions (queues (self w))). }
  split.
  { exists (connecting_events (self w)
            ++ [ Log DEBUG "Opening channel on RabbitMQ" []; OpenChannel;
                 Log DEBUG "Setting QOS on RabbitMQ Channel" [] ]),
           (Log INFO "Connected to RabbitMQ on %s:%r"
                [LVal (host (self w)); LVal (port (self w))]
            :: flat_map subscription_events (queues (self w))).
    split.
    { unfold channel_events. rewrite <- app_assoc. reflexivity. }
    unfold declared, consumed, qos_settings in *.
    rewrite !flat_map_app, Hd, Hc, Hq. simpl.
    repeat split; try reflexivity.
    apply (qos_subscriptions (queues (self w))). }
  unfold dispatches, acks in *. rewrite !filter_app, Hx, Ha.
  unfold channel_events. rewrite !filter_app. simpl.
  split; assumption.
Qed.

(** X10.  [setup] assigns the connection and the channel and nothing
    else: after a [setup] that returns, the sensor has a connection and a
    channel, and what [__init__] read from the configuration is as
    before. *)
Theorem setup_keeps_the_configuration w w1 :
  setup w = (Ok tt, w1) ->
  channel (self w1) = Some BlockingChannel_obj
  /\ conn (self w1) <> None
  /\ configuration (self w1) = configuration (self w).
Proof.
  intros H.
  destruct (BlockingConnection (connection_params (self w))) as [e|] eqn:Hb.
  - destruct (conn (self w)) as [c|] eqn:Hc.
    + rewrite (setup_refused_reconnect w e c Hc Hb) in H.
      injection H as <-. simpl. rewrite Hc. repeat split. discriminate.
    + rewrite (setup_refused w e Hc Hb) in H. discriminate.
  - rewrite (setup_connected w Hb) in H. injection H as <-. simpl.
    repeat split. discriminate.
Qed.

(** X11.  When the connection attempt raises on a sensor that still holds
    a connection from an earlier [setup], the failure is logged and
    [setup] carries on with the old connection: it opens a channel on it
    and subscribes to every queue. *)
Theorem setup_reuses_an_earlier_connection w e c :
  conn (self w) = Some c ->
  BlockingConnection (connection_params (self w)) = Some e ->
  fst (setup w) = Ok tt
  /\ conn (self (snd (setup w))) = Some c
  /\ channel (self (snd (setup w))) = Some BlockingChannel_obj
  /\ In (connect_failure_log e) (new_events w (snd (setup w)))
  /\ consumed (new_events w (snd (setup w)))
     = map (fun q => (q, Callback q)) (queues (self w)).
Proof.
  intros Hc Hb. rewrite (setup_refused_reconnect w e c Hc Hb). simpl.
  rewrite new_events_app.
  split; [reflexivity|]. split; [exact Hc|]. split; [reflexivity|]. split.
  - apply in_or_app. right. left. reflexivity.
  - destruct (connecting_events_quiet (self w)) as (_ & Hcs & _).
    unfold consumed in *. rewrite flat_map_app, Hcs.
    unfold connect_failure_log, channel_events. simpl.
    apply (consumed_subscriptions (queues (self w))).
Qed.

(** X12.  [cleanup] after [setup]: when the connection was opened it is
    closed, by one call; when it was refused on a sensor without
    connection there is nothing to close and [cleanup] returns without
    doing anything. *)
Theorem cleanup_after_setup w :
  (BlockingConnection (connection_params (self w)) = None ->
   fst (cleanup (snd (setup w))) = Ok tt
   /\ new_events (snd (setup w)) (snd (cleanup (snd (setup w)))) = [ConnClose])
  /\ (forall e,
       conn (self w) = None ->
       BlockingConnection (connection_params (self w)) = Some e ->
       cleanup (snd (setup w)) = (Ok tt, snd (setup w))).
Proof.
  split.
  - intros Hok. rewrite (setup_connected w Hok). simpl.
    unfold cleanup. cbv [bind get_self emit]. simpl.
    split; [reflexivity|].
    match goal with
    | |- new_events ?w0 (World ?s (?t ++ ?evs) ?c) = _ =>
      exact (new_events_app w0 s evs c)
    end.
  - intros e Hc Hb. rewrite (setup_refused w e Hc Hb). simpl.
    unfold cleanup. cbv [bind get_self ret]. simpl. rewrite Hc. reflexivity.
Qed.

(** X13.  [cleanup] does not forget the connection it closed: the sensor
    object is unchanged, and a second [cleanup] calls [close] again. *)
Theorem cleanup_keeps_the_connection w c :
  conn (self w) = Some c ->
  self (snd (cleanup w)) = self w
  /\ fst ((cleanup ;; cleanup) w) = Ok tt
  /\ new_events w (snd ((cleanup ;; cleanup) w)) = [ConnClose; ConnClose].
Proof.
  intros Hc. unfold cleanup. cbv [bind get_self emit]. simpl.
  rewrite Hc. simpl. rewrite Hc. simpl.
  split; [reflexivity|]. split; [reflexivity|].
  rewrite <- app_assoc. apply new_events_app.
Qed.

End SetupMore.

(* ================================================================= *)
(** ** More on the callback *)

Section CallbackMore.

Context {rt : Runtime}.

(** The callback on a sensor without channel, once the dispatch call is
    reached. *)
Lemma dispatch_trigger_no_channel ch m p body q w v text :
  channel (self w) = None ->
  fst (_deserialize_body body w) = Ok v ->
  decode_utf8 v = Ok text ->
  _dispatch_trigger ch m p body q w =
  (Raise no_basic_ack_attribute,
   World (self w)
         (trace w ++ [ Log DEBUG "Received message for queue %s with body %s"
                           [LVal q; LVal v];
                       Dispatch new_message (forwarded_event q text) ])
         (consumers w)).
Proof.
  intros Hc Hd Hu.
  unfold _dispatch_trigger, bind at 1.
  rewrite deserialize_body_pair, Hd.
  unfold new_message, forwarded_event, no_basic_ack_attribute.
  cbv [try_finally dispatch basic_ack logger bind emit lift get_self ret raise].
  simpl. rewrite Hu. simpl.
  destruct (sensor_service_dispatch _ _); simpl; rewrite Hc; simpl;
    repeat rewrite <- app_assoc; reflexivity.
Qed.

Lemma utf8_decode_ascii body :
  is_ascii body = true -> utf8_decode body = Some (map Byte.to_N body).
Proof.
  induction body as [|b body IH]; intros H; [reflexivity|].
  unfold is_ascii in H. cbn [forallb] in H.
  apply andb_true_iff in H. destruct H as [Hb Hrest].
  cbn [utf8_decode map]. cbv zeta. rewrite Hb.
  rewrite (IH Hrest). reflexivity.
Qed.

(** X14.  An exception of the deserializer that does not derive from
    [Exception] is not caught: it leaves the callback at once, before the
    message is logged, dispatched or acknowledged. *)
Theorem other_exceptions_of_the_deserializer_propagate
    ch m p body q w f e :
  truthy (deserialization_method (self w)) = true ->
  lookup_function (deserialization_method (self w)) = Ok f ->
  f body = Raise e ->
  is_Exception (exc_type e) = false ->
  _dispatch_trigger ch m p body q w = (Raise e, w).
Proof.
  intros Hm Hf Hr He.
  apply dispatch_trigger_deserializer_raises.
  unfold _deserialize_body. cbv [bind get_self lift].
  rewrite Hm, Hf. simpl. rewrite Hr, He. reflexivity.
Qed.

(** X15.  The method selects the deserializer: under ["json"] the body
    goes through [json.loads], under ["pickle"] through [pickle.loads],
    and in both cases a failure deriving from [Exception] gives the raw
    bytes back. *)
Theorem method_selects_the_deserializer body w :
  (deserialization_method (self w) = VStr (py "json") ->
   fst (_deserialize_body body w) = recover body (json_loads body))
  /\ (deserialization_method (self w) = VStr (py "pickle") ->
      fst (_deserialize_body body w) = recover body (pickle_loads body)).
Proof.
  split; intros Hm; unfold _deserialize_body; cbv [bind get_self lift];
    rewrite Hm; simpl.
  - destruct (json_loads body) as [v|e]; simpl; [reflexivity|].
    destruct (is_Exception (exc_type e)); reflexivity.
  - destruct (pickle_loads body) as [v|e]; simpl; [reflexivity|].
    destruct (is_Exception (exc_type e)); reflexivity.
Qed.

(** X16.  When the deserializer returns a [bytes] object that is valid
    UTF-8, the event carries the text of the deserialized bytes, not of
    the raw body. *)
Theorem deserialized_bytes_are_forwarded
    ch m p body q w c f content text :
  channel (self w) = Some c ->
  truthy (deserialization_method (self w)) = true ->
  lookup_function (deserialization_method (self w)) = Ok f ->
  f body = Ok (VBytes content) ->
  utf8_decode content = Some text ->
  _dispatch_trigger ch m p body q w =
  (dispatch_outcome q text,
   World (self w)
         (trace w ++ forwarding_events q (VBytes content) text (delivery_tag m))
         (consumers w)).
Proof.
  intros Hc Hm Hf Hr Hu.
  apply dispatch_trigger_reached with (c := c).
  - exact Hc.
  - unfold _deserialize_body. cbv [bind get_self lift].
    rewrite Hm, Hf. simpl. rewrite Hr. reflexivity.
  - simpl. now rewrite Hu.
Qed.

(** X17.  On an open channel the callback dispatches and acknowledges
    together or not at all: either its trace has no dispatch and no
    acknowledgment, or it has one dispatch, of an event for its queue, and
    one acknowledgment, of its delivery tag. *)
Theorem callback_dispatches_and_acknowledges_together ch m p body q w c :
  channel (self w) = Some c ->
  (dispatches (new_events w (snd (_dispatch_trigger ch m p body q w))) = []
   /\ acks (new_events w (snd (_dispatch_trigger ch m p body q w))) = [])
  \/ (exists text,
        dispatches (new_events w (snd (_dispatch_trigger ch m p body q w)))
        = [Dispatch new_message (forwarded_event q text)]
        /\ acks (new_events w (snd (_dispatch_trigger ch m p body q w)))
           = [BasicAck (delivery_tag m)]).
Proof.
  intros Hc.
  destruct (fst (_deserialize_body body w)) as [v|e] eqn:Hd.
  - destruct (decode_utf8 v) as [text|e] eqn:Hu.
    + right. exists text.
      rewrite (dispatch_trigger_reached ch m p body q w c v text Hc Hd Hu).
      simpl. rewrite new_events_app. split; reflexivity.
    + left. rewrite (dispatch_trigger_undecodable ch m p body q w v e Hd Hu).
      simpl. rewrite new_events_app. split; reflexivity.
  - left. rewrite (dispatch_trigger_deserializer_raises ch m p body q w e Hd).
    simpl. rewrite new_events_nil. split; reflexivity.
Qed.

(** X18.  The callback leaves the sensor object and the registered
    consumers as they are, and only adds to the trace. *)
Theorem callback_only_adds_events ch m p body q w :
  self (snd (_dispatch_trigger ch m p body q w)) = self w
  /\ consumers (snd (_dispatch_trigger ch m p body q w)) = consumers w
  /\ trace (snd (_dispatch_trigger ch m p body q w))
     = trace w ++ new_events w (snd (_dispatch_trigger ch m p body q w)).
Proof.
  destruct (fst (_deserialize_body body w)) as [v|e] eqn:Hd.
  - destruct (decode_utf8 v) as [text|e] eqn:Hu.
    + destruct (channel (self w)) as [c|] eqn:Hc.
      * rewrite (dispatch_trigger_reached ch m p body q w c v text Hc Hd Hu).
        simpl. rewrite new_events_app. auto.
      * rewrite (dispatch_trigger_no_channel ch m p body q w v text Hc Hd Hu).
        simpl. rewrite new_events_app. auto.
    + rewrite (dispatch_trigger_undecodable ch m p body q w v e Hd Hu).
      simpl. rewrite new_events_app. auto.
  - rewrite (dispatch_trigger_deserializer_raises ch m p body q w e Hd).
    rewrite new_events_nil, app_nil_r. auto.
Qed.

(** X19.  On a sensor without channel the event is dispatched all the
    same; the acknowledgment in the [finally] block then raises
    [AttributeError], which is what the callback raises, also when the
    dispatch had raised; nothing is acknowledged. *)
Theorem callback_without_channel ch m p body q w v text :
  channel (self w) = None ->
  fst (_deserialize_body body w) = Ok v ->
  decode_utf8 v = Ok text ->
  fst (_dispatch_trigger ch m p body q w) = Raise no_basic_ack_attribute
  /\ dispatches (new_events w (snd (_dispatch_trigger ch m p body q w)))
     = [Dispatch new_message (forwarded_event q text)]
  /\ acks (new_events w (snd (_dispatch_trigger ch m p body q w))) = [].
Proof.
  intros Hc Hd Hu.
  rewrite (dispatch_trigger_no_channel ch m p body q w v text Hc Hd Hu).
  simpl. rewrite new_events_app. auto.
Qed.

(** X20.  When the host takes the event, the callback returns normally,
    and the acknowledgment is the last thing it did. *)
Theorem accepted_dispatch_returns ch m p body q w c trig payload :
  channel (self w) = Some c ->
  In (Dispatch trig payload)
     (new_events w (snd (_dispatch_trigger ch m p body q w))) ->
  sensor_service_dispatch trig payload = None ->
  fst (_dispatch_trigger ch m p body q w) = Ok tt /\
  exists before,
    new_events w (snd (_dispatch_trigger ch m p body q w))
    = before ++ [Dispatch trig payload; BasicAck (delivery_tag m)].
Proof.
  intros Hc Hin Hn.
  destruct (dispatch_trigger_events ch m p body q w c trig payload Hc Hin)
    as (v & text & -> & -> & Hrun).
  rewrite Hrun. simpl. rewrite new_events_app. split.
  - unfold dispatch_outcome. now rewrite Hn.
  - eexists [_]. reflexivity.
Qed.

(** X21.  With no deserialization method, a body of ASCII bytes is always
    forwarded, character for character. *)
Theorem ascii_body_is_forwarded_verbatim ch m p body q w c :
  truthy (deserialization_method (self w)) = false ->
  channel (self w) = Some c ->
  is_ascii body = true ->
  _dispatch_trigger ch m p body q w =
  (dispatch_outcome q (map Byte.to_N body),
   World (self w)
         (trace w ++ forwarding_events q (VBytes body) (map Byte.to_N body)
                                       (delivery_tag m))
         (consumers w)).
Proof.
  intros Hm Hc Ha.
  apply dispatch_trigger_reached with (c := c).
  - exact Hc.
  - now rewrite deserialize_body_identity.
  - simpl. now rewrite (utf8_decode_ascii body Ha).
Qed.

End CallbackMore.

(* ================================================================= *)
(** ** The consumption loop *)

Section RunProperties.

Context {rt : Runtime}.


(** One delivery when the host accepts everything. *)
Lemma deliver_accepted d w c :
  channel (self w) = Some c ->
  truthy (deserialization_method (self w)) = false ->
  (forall trig payload, sensor_service_dispatch trig payload = None) ->
  deliverable (consumers w) d = true ->
  deliver d w =
  (Ok tt,
   World (self w) (trace w ++ delivery_events (consumers w) d) (consumers w)).
Proof.
  intros Hc Hm Hhost Hd.
  unfold deliver, deliverable, delivery_events in *.
  destruct (nth_error (consumers w) (consumer_index d)) as [[q cb]|];
    [|discriminate].
  destruct (utf8_decode (raw_body d)) as [text|] eqn:Hu; [|discriminate].
  unfold call_callback.
  rewrite (dispatch_trigger_reached BlockingChannel_obj (method_frame d)
             (properties_frame d) (raw_body d) (queue_copy cb) w c
             (VBytes (raw_body d)) text Hc).
  - unfold dispatch_outcome. now rewrite Hhost.
  - now rewrite deserialize_body_identity.
  - simpl. now rewrite Hu.
Qed.

Lemma for_each_deliver_accepted ds : forall w c,
  channel (self w) = Some c ->
  truthy (deserialization_method (self w)) = false ->
  (forall trig payload, sensor_service_dispatch trig payload = None) ->
  forallb (deliverable (consumers w)) ds = true ->
  for_each ds deliver w =
  (Ok tt,
   World (self w) (trace w ++ flat_map (delivery_events (consumers w)) ds)
         (consumers w)).
Proof.
  induction ds as [|d ds IH]; intros w c Hc Hm Hhost Hall; simpl.
  - rewrite app_nil_r. destruct w; reflexivity.
  - simpl in Hall. apply andb_true_iff in Hall. destruct Hall as [Hd Hall].
    unfold bind. rewrite (deliver_accepted d w c Hc Hm Hhost Hd).
    rewrite (IH _ c); simpl; auto.
    now rewrite <- app_assoc.
Qed.

Lemma acks_of_deliveries cs ds :
  forallb (deliverable cs) ds = true ->
  acks (flat_map (delivery_events cs) ds) = expected_acks ds
  /\ List.length (dispatches (flat_map (delivery_events cs) ds))
     = List.length ds.
Proof.
  induction ds as [|d ds IH]; intros Hall; simpl; [auto|].
  simpl in Hall. apply andb_true_iff in Hall. destruct Hall as [Hd Hall].
  destruct (IH Hall) as [IHa IHd].
  unfold acks, dispatches in *. rewrite !filter_app, IHa, length_app, IHd.
  unfold deliverable, delivery_events in *.
  destruct (nth_error cs (consumer_index d)) as [[q cb]|]; [|discriminate].
  destruct (utf8_decode (raw_body d)); [|discriminate].
  split; reflexivity.
Qed.

(** X22.  With no deserialization method, a host that accepts every event
    and deliveries that are addressed to registered consumers and carry
    UTF-8 bodies, [run] returns after it has dispatched one event per
    delivery, and the acknowledgments were issued in the order of the
    deliveries, one per delivery tag. *)
Theorem run_acknowledges_in_delivery_order ds w c :
  channel (self w) = Some c ->
  truthy (deserialization_method (self w)) = false ->
  (forall trig payload, sensor_service_dispatch trig payload = None) ->
  forallb (deliverable (consumers w)) ds = true ->
  fst (run ds w) = Ok tt
  /\ acks (new_events w (snd (run ds w))) = expected_acks ds
  /\ List.length (dispatches (new_events w (snd (run ds w))))
     = List.length ds.
Proof.
  intros Hc Hm Hhost Hall.
  unfold run. cbv [bind get_self logger emit]. rewrite Hc. simpl.
  rewrite (for_each_deliver_accepted ds _ c); simpl; auto.
  split; [reflexivity|].
  rewrite <- !app_assoc. rewrite new_events_app. simpl.
  exact (acks_of_deliveries (consumers w) ds Hall).
Qed.


End RunProperties.

(* ================================================================= *)
(** ** The further theorems at concrete inputs *)

Section MoreInstances.

Import CPython.

Lemma init_reads_settings_with_defaults_at_orders :
  __init__ (rt := healthy) orders_config = Ok orders_sensor
  /\ exists sc,
       getitem orders_config (py "sensor_config") = Ok (VDict sc)
       /\ dict_get sc (py "host") = Some (host orders_sensor)
       /\ port orders_sensor = entry sc "port" (VInt 5672)
       /\ username orders_sensor = entry sc "username" VNone
       /\ password orders_sensor = entry sc "password" VNone
       /\ vhost orders_sensor = entry sc "vhost" VNone
       /\ socket_timeout orders_sensor = entry sc "socket_timeout" (VInt 60)
       /\ blocked_connection_timeout orders_sensor
          = entry sc "blocked_connection_timeout" (VInt 60)
       /\ heartbeat orders_sensor = entry sc "heartbeat" (VInt 600).
Proof.
  assert (H : __init__ (rt := healthy) orders_config = Ok orders_sensor)
    by (vm_compute; reflexivity).
  split; [exact H|].
  exact (init_reads_settings_with_defaults (rt := healthy)
           orders_config orders_sensor H).
Defined.

Lemma init_requires_host_at_empty_configurations :
  getitem (VDict []) (py "sensor_config")
  = Raise (Exc KeyError "%r" [VStr (py "sensor_config")])
  /\ __init__ (rt := healthy) (VDict [])
     = Raise (Exc KeyError "%r" [VStr (py "sensor_config")])
  /\ getitem (VDict [(py "sensor_config", VDict [])]) (py "sensor_config")
     = Ok (VDict [])
  /\ getitem (VDict []) (py "host") = Raise (Exc KeyError "%r" [VStr (py "host")])
  /\ __init__ (rt := healthy) (VDict [(py "sensor_config", VDict [])])
     = Raise (Exc KeyError "%r" [VStr (py "host")]).
Proof.
  assert (H1 : getitem (VDict []) (py "sensor_config")
               = Raise (Exc KeyError "%r" [VStr (py "sensor_config")]))
    by reflexivity.
  assert (H2 : getitem (VDict [(py "sensor_config", VDict [])])
                       (py "sensor_config") = Ok (VDict []))
    by (vm_compute; reflexivity).
  assert (H3 : getitem (VDict []) (py "host")
               = Raise (Exc KeyError "%r" [VStr (py "host")]))
    by reflexivity.
  split; [exact H1|]. split.
  { exact (proj1 (init_requires_host (rt := healthy) (VDict [])) _ H1). }
  split; [exact H2|]. split; [exact H3|].
  exact (proj2 (init_requires_host (rt := healthy)
                  (VDict [(py "sensor_config", VDict [])])) _ _ H2 H3).
Defined.

Lemma init_requires_queue_entries_at_missing_queues :
  getitem (queue_config (VDict [(py "deserialization_method", VStr (py "yaml"))]))
          (py "sensor_config")
  = Ok (VDict (queue_config_entries
                 (VDict [(py "deserialization_method", VStr (py "yaml"))])))
  /\ dict_get (queue_config_entries
                 (VDict [(py "deserialization_method", VStr (py "yaml"))]))
              (py "host")
     = Some (VStr (py "localhost"))
  /\ dict_get (queue_config_entries
                 (VDict [(py "deserialization_method", VStr (py "yaml"))]))
              (py "rabbitmq_queue_sensor")
     = Some (VDict [(py "deserialization_method", VStr (py "yaml"))])
  /\ getitem (VDict [(py "deserialization_method", VStr (py "yaml"))])
             (py "queues")
     = Raise (Exc KeyError "%r" [VStr (py "queues")])
  /\ __init__ (rt := healthy)
       (queue_config (VDict [(py "deserialization_method", VStr (py "yaml"))]))
     = Raise (Exc KeyError "%r" [VStr (py "queues")]).
Proof.
  assert (H1 : getitem (queue_config
                  (VDict [(py "deserialization_method", VStr (py "yaml"))]))
                  (py "sensor_config")
               = Ok (VDict (queue_config_entries
                   (VDict [(py "deserialization_method", VStr (py "yaml"))]))))
    by (vm_compute; reflexivity).
  assert (H2 : dict_get (queue_config_entries
                  (VDict [(py "deserialization_method", VStr (py "yaml"))]))
                  (py "host") = Some (VStr (py "localhost")))
    by (vm_compute; reflexivity).
  assert (H3 : dict_get (queue_config_entries
                  (VDict [(py "deserialization_method", VStr (py "yaml"))]))
                  (py "rabbitmq_queue_sensor")
               = Some (VDict [(py "deserialization_method", VStr (py "yaml"))]))
    by (vm_compute; reflexivity).
  assert (H4 : getitem (VDict [(py "deserialization_method", VStr (py "yaml"))])
                       (py "queues")
               = Raise (Exc KeyError "%r" [VStr (py "queues")]))
    by (vm_compute; reflexivity).
  split; [exact H1|]. split; [exact H2|]. split; [exact H3|].
  split; [exact H4|].
  exact (proj1 (init_requires_queue_entries (rt := healthy) _ _ _ _ H1 H2 H3)
               _ H4).
Defined.

Lemma init_accepts_exactly_the_supported_methods_at_none :
  getitem (sample_config orders VNone) (py "sensor_config")
  = Ok (VDict (sample_sensor_entries orders VNone))
  /\ dict_get (sample_sensor_entries orders VNone) (py "host")
     = Some (VStr (py "localhost"))
  /\ dict_get (sample_sensor_entries orders VNone) (py "rabbitmq_queue_sensor")
     = Some (VDict (sample_queue_entries orders VNone))
  /\ getitem (VDict (sample_queue_entries orders VNone)) (py "queues")
     = Ok orders
  /\ getitem (VDict (sample_queue_entries orders VNone))
             (py "deserialization_method") = Ok VNone
  /\ ((exists s, __init__ (rt := healthy) (sample_config orders VNone) = Ok s)
      <-> (truthy VNone = false \/ VNone = VStr (py "json")
           \/ VNone = VStr (py "pickle")))
  /\ (forall s, __init__ (rt := healthy) (sample_config orders VNone) = Ok s ->
                deserialization_method s = VNone).
Proof.
  split; [vm_compute; reflexivity|]. split; [vm_compute; reflexivity|].
  split; [vm_compute; reflexivity|]. split; [vm_compute; reflexivity|].
  split; [vm_compute; reflexivity|].
  exact (init_accepts_exactly_the_supported_methods (rt := healthy)
           (sample_config orders VNone) (sample_sensor_entries orders VNone)
           (VDict (sample_queue_entries orders VNone))
           (VStr (py "localhost")) orders VNone
           eq_refl eq_refl eq_refl eq_refl eq_refl).
Defined.

Lemma init_rejects_non_string_methods_at_lists_and_numbers :
  truthy (VInt 5) = true
  /\ (forall name, VInt 5 <> VStr name)
  /\ __init__ (rt := healthy) (sample_config orders (VInt 5))
     = Raise (Exc ValueError "Invalid deserialization method specified: %s"
                  [VInt 5])
  /\ truthy (VList [VStr (py "json")]) = true
  /\ (forall name, VList [VStr (py "json")] <> VStr name)
  /\ __init__ (rt := healthy) (sample_config orders (VList [VStr (py "json")]))
     = Raise (Exc TypeError "unhashable type" [VList [VStr (py "json")]]).
Proof.
  assert (H1 : forall name, VInt 5 <> VStr name) by (intros; discriminate).
  assert (H2 : forall name, VList [VStr (py "json")] <> VStr name)
    by (intros; discriminate).
  split; [reflexivity|]. split; [exact H1|]. split.
  { exact (init_rejects_non_string_methods (rt := healthy)
             (sample_config orders (VInt 5))
             (sample_sensor_entries orders (VInt 5))
             (VDict (sample_queue_entries orders (VInt 5)))
             (VStr (py "localhost")) orders (VInt 5)
             eq_refl eq_refl eq_refl eq_refl eq_refl eq_refl H1). }
  split; [reflexivity|]. split; [exact H2|].
  exact (init_rejects_non_string_methods (rt := healthy)
           (sample_config orders (VList [VStr (py "json")]))
           (sample_sensor_entries orders (VList [VStr (py "json")]))
           (VDict (sample_queue_entries orders (VList [VStr (py "json")])))
           (VStr (py "localhost")) orders (VList [VStr (py "json")])
           eq_refl eq_refl eq_refl eq_refl eq_refl eq_refl H2).
Defined.

Lemma init_normalises_queues_at_orders :
  getitem (sample_config orders VNone) (py "sensor_config")
  = Ok (VDict (sample_sensor_entries orders VNone))
  /\ dict_get (sample_sensor_entries orders VNone) (py "host")
     = Some (VStr (py "localhost"))
  /\ dict_get (sample_sensor_entries orders VNone) (py "rabbitmq_queue_sensor")
     = Some (VDict (sample_queue_entries orders VNone))
  /\ getitem (VDict (sample_queue_entries orders VNone)) (py "queues")
     = Ok orders
  /\ getitem (VDict (sample_queue_entries orders VNone))
             (py "deserialization_method") = Ok VNone
  /\ __init__ (rt := healthy) (sample_config orders VNone) = Ok orders_sensor
  /\ (forall l, orders <> VList l)
  /\ queues orders_sensor = [orders].
Proof.
  assert (H : __init__ (rt := healthy) (sample_config orders VNone)
              = Ok orders_sensor) by (vm_compute; reflexivity).
  assert (Hn : forall l, orders <> VList l) by (intros; discriminate).
  split; [vm_compute; reflexivity|]. split; [vm_compute; reflexivity|].
  split; [vm_compute; reflexivity|]. split; [vm_compute; reflexivity|].
  split; [vm_compute; reflexivity|]. split; [exact H|]. split; [exact Hn|].
  exact (proj2 (init_normalises_queues (rt := healthy)
                  (sample_config orders VNone)
                  (sample_sensor_entries orders VNone)
                  (VDict (sample_queue_entries orders VNone))
                  (VStr (py "localhost")) orders VNone orders_sensor
                  eq_refl eq_refl eq_refl eq_refl eq_refl H) Hn).
Defined.

Lemma constructed_sensor_is_not_connected_at_orders :
  __init__ (rt := healthy) orders_config = Ok orders_sensor
  /\ conn orders_sensor = None /\ channel orders_sensor = None
  /\ run (rt := healthy) three_deliveries (fresh orders_sensor)
     = (Raise no_start_consuming_attribute,
        World orders_sensor [starting_log orders_sensor] [])
  /\ cleanup (fresh orders_sensor) = (Ok tt, fresh orders_sensor).
Proof.
  assert (H : __init__ (rt := healthy) orders_config = Ok orders_sensor)
    by (vm_compute; reflexivity).
  split; [exact H|].
  exact (constructed_sensor_is_not_connected (rt := healthy)
           orders_config orders_sensor three_deliveries H).
Defined.

Lemma setup_subscribes_every_queue_at_orders :
  BlockingConnection (Runtime := healthy)
    (connection_params (self (fresh orders_sensor))) = None
  /\ fst (setup (rt := healthy) (fresh orders_sensor)) = Ok tt
  /\ declared (new_events (fresh orders_sensor)
                 (snd (setup (rt := healthy) (fresh orders_sensor))))
     = [(orders, true)]
  /\ consumed (new_events (fresh orders_sensor)
                 (snd (setup (rt := healthy) (fresh orders_sensor))))
     = [(orders, Callback orders)].
Proof.
  assert (H : BlockingConnection (Runtime := healthy)
                (connection_params (self (fresh orders_sensor))) = None)
    by reflexivity.
  destruct (setup_subscribes_every_queue (rt := healthy)
              (fresh orders_sensor) H) as (H1 & _ & H3 & H4 & _).
  split; [exact H|]. split; [exact H1|]. split; [exact H3|]. exact H4.
Defined.

Lemma setup_keeps_the_configuration_at_orders :
  setup (rt := healthy) (fresh orders_sensor)
  = (Ok tt, snd (setup (rt := healthy) (fresh orders_sensor)))
  /\ channel (self (snd (setup (rt := healthy) (fresh orders_sensor))))
     = Some BlockingChannel_obj
  /\ conn (self (snd (setup (rt := healthy) (fresh orders_sensor)))) <> None
  /\ configuration (self (snd (setup (rt := healthy) (fresh orders_sensor))))
     = configuration (self (fresh orders_sensor)).
Proof.
  assert (H : setup (rt := healthy) (fresh orders_sensor)
              = (Ok tt, snd (setup (rt := healthy) (fresh orders_sensor))))
    by (vm_compute; reflexivity).
  split; [exact H|].
  exact (setup_keeps_the_configuration (rt := healthy)
           (fresh orders_sensor) _ H).
Defined.

Lemma setup_reuses_an_earlier_connection_at_orders :
  conn (self orders_world) = Some BlockingConnection_obj
  /\ BlockingConnection (Runtime := unreachable_broker)
       (connection_params (self orders_world)) = Some connection_refused
  /\ fst (setup (rt := unreachable_broker) orders_world) = Ok tt
  /\ conn (self (snd (setup (rt := unreachable_broker) orders_world)))
     = Some BlockingConnection_obj
  /\ channel (self (snd (setup (rt := unreachable_broker) orders_world)))
     = Some BlockingChannel_obj
  /\ In (connect_failure_log connection_refused)
        (new_events orders_world
           (snd (setup (rt := unreachable_broker) orders_world)))
  /\ consumed (new_events orders_world
                 (snd (setup (rt := unreachable_broker) orders_world)))
     = map (fun q => (q, Callback q)) (queues (self orders_world)).
Proof.
  split; [reflexivity|]. split; [reflexivity|].
  exact (setup_reuses_an_earlier_connection (rt := unreachable_broker)
           orders_world connection_refused BlockingConnection_obj
           eq_refl eq_refl).
Defined.

Lemma cleanup_after_setup_at_orders :
  BlockingConnection (Runtime := healthy)
    (connection_params (self (fresh orders_sensor))) = None
  /\ fst (cleanup (snd (setup (rt := healthy) (fresh orders_sensor)))) = Ok tt
  /\ new_events (snd (setup (rt := healthy) (fresh orders_sensor)))
       (snd (cleanup (snd (setup (rt := healthy) (fresh orders_sensor)))))
     = [ConnClose]
  /\ conn (self (fresh orders_sensor)) = None
  /\ BlockingConnection (Runtime := unreachable_broker)
       (connection_params (self (fresh orders_sensor)))
     = Some connection_refused
  /\ cleanup (snd (setup (rt := unreachable_broker) (fresh orders_sensor)))
     = (Ok tt, snd (setup (rt := unreachable_broker) (fresh orders_sensor))).
Proof.
  assert (H1 : BlockingConnection (Runtime := healthy)
                 (connection_params (self (fresh orders_sensor))) = None)
    by reflexivity.
  assert (H2 : conn (self (fresh orders_sensor)) = None) by reflexivity.
  assert (H3 : BlockingConnection (Runtime := unreachable_broker)
                 (connection_params (self (fresh orders_sensor)))
               = Some connection_refused) by reflexivity.
  destruct (proj1 (cleanup_after_setup (rt := healthy) (fresh orders_sensor))
                  H1) as [Ha Hb].
  split; [exact H1|]. split; [exact Ha|]. split; [exact Hb|].
  split; [exact H2|]. split; [exact H3|].
  exact (proj2 (cleanup_after_setup (rt := unreachable_broker)
                  (fresh orders_sensor)) connection_refused H2 H3).
Defined.

Lemma cleanup_keeps_the_connection_at_orders :
  conn (self orders_world) = Some BlockingConnection_obj
  /\ self (snd (cleanup orders_world)) = self orders_world
  /\ fst ((cleanup ;; cleanup) orders_world) = Ok tt
  /\ new_events orders_world (snd ((cleanup ;; cleanup) orders_world))
     = [ConnClose; ConnClose].
Proof.
  split; [reflexivity|].
  exact (cleanup_keeps_the_connection orders_world BlockingConnection_obj
           eq_refl).
Defined.

Lemma other_exceptions_of_the_deserializer_propagate_at_exit :
  truthy (deserialization_method (self (jobs_world "pickle"))) = true
  /\ lookup_function (rt := exiting_pickle)
       (deserialization_method (self (jobs_world "pickle")))
     = Ok exiting_loads
  /\ exiting_loads pickled_hi = Raise (Exc SystemExit "" [])
  /\ is_Exception (exc_type (Exc SystemExit "" [])) = false
  /\ _dispatch_trigger (rt := exiting_pickle) BlockingChannel_obj (Deliver 1)
       BasicProperties pickled_hi (VStr (py "jobs")) (jobs_world "pickle")
     = (Raise (Exc SystemExit "" []), jobs_world "pickle").
Proof.
  split; [reflexivity|]. split; [reflexivity|]. split; [reflexivity|].
  split; [reflexivity|].
  exact (other_exceptions_of_the_deserializer_propagate (rt := exiting_pickle)
           BlockingChannel_obj (Deliver 1) BasicProperties pickled_hi
           (VStr (py "jobs")) (jobs_world "pickle") exiting_loads
           (Exc SystemExit "" []) eq_refl eq_refl eq_refl eq_refl).
Defined.

Lemma method_selects_the_deserializer_at_jobs :
  deserialization_method (self (jobs_world "json")) = VStr (py "json")
  /\ fst (_deserialize_body (rt := healthy) body_id1 (jobs_world "json"))
     = recover body_id1 (CPython.json_loads body_id1)
  /\ deserialization_method (self (jobs_world "pickle")) = VStr (py "pickle")
  /\ fst (_deserialize_body (rt := healthy) pickled_hi (jobs_world "pickle"))
     = recover pickled_hi (CPython.pickle_loads pickled_hi).
Proof.
  split; [reflexivity|]. split.
  { exact (proj1 (method_selects_the_deserializer (rt := healthy)
                    body_id1 (jobs_world "json")) eq_refl). }
  split; [reflexivity|].
  exact (proj2 (method_selects_the_deserializer (rt := healthy)
                  pickled_hi (jobs_world "pickle")) eq_refl).
Defined.

Lemma deserialized_bytes_are_forwarded_at_pickled_hi :
  channel (self (jobs_world "pickle")) = Some BlockingChannel_obj
  /\ truthy (deserialization_method (self (jobs_world "pickle"))) = true
  /\ lookup_function (rt := healthy)
       (deserialization_method (self (jobs_world "pickle")))
     = Ok CPython.pickle_loads
  /\ CPython.pickle_loads pickled_hi = Ok (VBytes (bytes_of "hi"))
  /\ utf8_decode (bytes_of "hi") = Some (py "hi")
  /\ _dispatch_trigger (rt := healthy) BlockingChannel_obj (Deliver 1)
       BasicProperties pickled_hi (VStr (py "jobs")) (jobs_world "pickle")
     = (dispatch_outcome (rt := healthy) (VStr (py "jobs")) (py "hi"),
        World (self (jobs_world "pickle"))
              (trace (jobs_world "pickle")
               ++ forwarding_events (VStr (py "jobs")) (VBytes (bytes_of "hi"))
                                    (py "hi") 1)
              (consumers (jobs_world "pickle"))).
Proof.
  split; [reflexivity|]. split; [reflexivity|]. split; [reflexivity|].
  split; [reflexivity|]. split; [reflexivity|].
  exact (deserialized_bytes_are_forwarded (rt := healthy)
           BlockingChannel_obj (Deliver 1) BasicProperties pickled_hi
           (VStr (py "jobs")) (jobs_world "pickle") BlockingChannel_obj
           CPython.pickle_loads (bytes_of "hi") (py "hi")
           eq_refl eq_refl eq_refl eq_refl eq_refl).
Defined.

Lemma callback_dispatches_and_acknowledges_together_at_hello :
  channel (self orders_world) = Some BlockingChannel_obj
  /\ ((dispatches
         (new_events orders_world
            (snd (_dispatch_trigger (rt := healthy) BlockingChannel_obj
                    (Deliver 1) BasicProperties (bytes_of "hello") orders
                    orders_world))) = []
       /\ acks
            (new_events orders_world
               (snd (_dispatch_trigger (rt := healthy) BlockingChannel_obj
                       (Deliver 1) BasicProperties (bytes_of "hello") orders
                       orders_world))) = [])
      \/ (exists text,
            dispatches
              (new_events orders_world
                 (snd (_dispatch_trigger (rt := healthy) BlockingChannel_obj
                         (Deliver 1) BasicProperties (bytes_of "hello") orders
                         orders_world)))
            = [Dispatch new_message (forwarded_event orders text)]
            /\ acks
                 (new_events orders_world
                    (snd (_dispatch_trigger (rt := healthy)
                            BlockingChannel_obj (Deliver 1) BasicProperties
                            (bytes_of "hello") orders orders_world)))
               = [BasicAck (delivery_tag (Deliver 1))])).
Proof.
  split; [reflexivity|].
  exact (callback_dispatches_and_acknowledges_together (rt := healthy)
           BlockingChannel_obj (Deliver 1) BasicProperties (bytes_of "hello")
           orders orders_world BlockingChannel_obj eq_refl).
Defined.

Lemma callback_without_channel_at_hello :
  channel (self (fresh orders_sensor)) = None
  /\ fst (_deserialize_body (rt := healthy) (bytes_of "hello")
            (fresh orders_sensor)) = Ok (VBytes (bytes_of "hello"))
  /\ decode_utf8 (VBytes (bytes_of "hello")) = Ok (py "hello")
  /\ fst (_dispatch_trigger (rt := healthy) BlockingChannel_obj (Deliver 1)
            BasicProperties (bytes_of "hello") orders (fresh orders_sensor))
     = Raise no_basic_ack_attribute
  /\ dispatches
       (new_events (fresh orders_sensor)
          (snd (_dispatch_trigger (rt := healthy) BlockingChannel_obj
                  (Deliver 1) BasicProperties (bytes_of "hello") orders
                  (fresh orders_sensor))))
     = [Dispatch new_message (forwarded_event orders (py "hello"))]
  /\ acks
       (new_events (fresh orders_sensor)
          (snd (_dispatch_trigger (rt := healthy) BlockingChannel_obj
                  (Deliver 1) BasicProperties (bytes_of "hello") orders
                  (fresh orders_sensor)))) = [].
Proof.
  split; [reflexivity|]. split; [reflexivity|]. split; [reflexivity|].
  exact (callback_without_channel (rt := healthy) BlockingChannel_obj
           (Deliver 1) BasicProperties (bytes_of "hello") orders
           (fresh orders_sensor) (VBytes (bytes_of "hello")) (py "hello")
           eq_refl eq_refl eq_refl).
Defined.

Lemma accepted_dispatch_returns_at_hello :
  channel (self orders_world) = Some BlockingChannel_obj
  /\ In (Dispatch new_message (forwarded_event orders (py "hello")))
        (new_events orders_world
           (snd (_dispatch_trigger (rt := healthy) BlockingChannel_obj
                   (Deliver 1) BasicProperties (bytes_of "hello") orders
                   orders_world)))
  /\ sensor_service_dispatch (Runtime := healthy) new_message
       (forwarded_event orders (py "hello")) = None
  /\ fst (_dispatch_trigger (rt := healthy) BlockingChannel_obj (Deliver 1)
            BasicProperties (bytes_of "hello") orders orders_world) = Ok tt
  /\ exists before,
       new_events orders_world
         (snd (_dispatch_trigger (rt := healthy) BlockingChannel_obj
                 (Deliver 1) BasicProperties (bytes_of "hello") orders
                 orders_world))
       = before ++ [ Dispatch new_message (forwarded_event orders (py "hello"));
                     BasicAck (delivery_tag (Deliver 1)) ].
Proof.
  assert (Hin : In (Dispatch new_message (forwarded_event orders (py "hello")))
        (new_events orders_world
           (snd (_dispatch_trigger (rt := healthy) BlockingChannel_obj
                   (Deliver 1) BasicProperties (bytes_of "hello") orders
                   orders_world))))
    by (vm_compute; right; left; reflexivity).
  split; [reflexivity|]. split; [exact Hin|]. split; [reflexivity|].
  exact (accepted_dispatch_returns (rt := healthy) BlockingChannel_obj
           (Deliver 1) BasicProperties (bytes_of "hello") orders orders_world
           BlockingChannel_obj new_message
           (forwarded_event orders (py "hello")) eq_refl Hin eq_refl).
Defined.

Lemma ascii_body_is_forwarded_verbatim_at_hello :
  truthy (deserialization_method (self orders_world)) = false
  /\ channel (self orders_world) = Some BlockingChannel_obj
  /\ is_ascii (bytes_of "hello") = true
  /\ _dispatch_trigger (rt := healthy) BlockingChannel_obj (Deliver 1)
       BasicProperties (bytes_of "hello") orders orders_world
     = (dispatch_outcome (rt := healthy) orders
          (map Byte.to_N (bytes_of "hello")),
        World (self orders_world)
              (trace orders_world
               ++ forwarding_events orders (VBytes (bytes_of "hello"))
                    (map Byte.to_N (bytes_of "hello"))
                    (delivery_tag (Deliver 1)))
              (consumers orders_world)).
Proof.
  split; [reflexivity|]. split; [reflexivity|]. split; [reflexivity|].
  exact (ascii_body_is_forwarded_verbatim (rt := healthy) BlockingChannel_obj
           (Deliver 1) BasicProperties (bytes_of "hello") orders orders_world
           BlockingChannel_obj eq_refl eq_refl eq_refl).
Defined.

Lemma run_acknowledges_in_delivery_order_at_a_b_a :
  channel (self two_queues_world) = Some BlockingChannel_obj
  /\ truthy (deserialization_method (self two_queues_world)) = false
  /\ (forall trig payload,
        sensor_service_dispatch (Runtime := healthy) trig payload = None)
  /\ forallb (deliverable (consumers two_queues_world)) three_deliveries = true
  /\ fst (run (rt := healthy) three_deliveries two_queues_world) = Ok tt
  /\ acks (new_events two_queues_world
             (snd (run (rt := healthy) three_deliveries two_queues_world)))
     = expected_acks three_deliveries
  /\ List.length
       (dispatches
          (new_events two_queues_world
             (snd (run (rt := healthy) three_deliveries two_queues_world))))
     = List.length three_deliveries.
Proof.
  assert (Hhost : forall trig payload,
             sensor_service_dispatch (Runtime := healthy) trig payload = None)
    by (intros; reflexivity).
  assert (Hall : forallb (deliverable (consumers two_queues_world))
                         three_deliveries = true)
    by (vm_compute; reflexivity).
  split; [reflexivity|]. split; [reflexivity|]. split; [exact Hhost|].
  split; [exact Hall|].
  exact (run_acknowledges_in_delivery_order (rt := healthy) three_deliveries
           two_queues_world BlockingChannel_obj eq_refl eq_refl Hhost Hall).
Defined.


End MoreInstances.
